(** * faustwasm: the DSP node generators (FaustDspGenerator)

    A shallow embedding of [FaustMonoDspGenerator] and [FaustPolyDspGenerator]
    and the properties of their worklet registration cache, sample-size
    resolution and failure handling.

    The generators are asynchronous JavaScript methods.  Every [await] is
    modelled as run to completion: a call is one state transformer over the
    process-wide state ([World]), and calls follow one another.  Calls that
    overlap in time (a second [createNode] started while the first one is
    still waiting for [addModule]) are outside this model.

    [null] is [None].  The two failures the generators handle themselves are
    modelled: a compiler that returns no factory or no mixer module, and an
    [addModule] that rejects.  [JSON.parse], the instantiator and the node
    constructors are taken to return what their TypeScript signatures
    promise. *)

From stdpp Require Import gmap strings pretty list.

(** ** Data model *)

(** Modelled from the spec: the metadata document type [FaustDspMeta] is
    declared in [types.ts], which is not among the sources.  Only the keys the
    generators and the spec refer to are kept: the compile options (holding the
    precision flag) and the declared channel counts. *)
Record FaustDspMeta : Type := {
  compile_options : string;
  inputs : N;
  outputs : N
}.

(** [WebAssembly.Module]: an opaque compiled binary. *)
Record WasmModule : Type := { wasm_binary : list Byte.byte }.

(** Modelled from the spec: [FaustDspFactory] is declared in [types.ts] too.
    [cfactory] is the numeric handle of the factory inside the compiler,
    [code] the binary, [json] the metadata document as text. *)
Record FaustDspFactory : Type := {
  cfactory : Z;
  code : list Byte.byte;
  module : WasmModule;
  json : string;
  poly : bool
}.

(** [BaseAudioContext]: an identity and the one property the generators read. *)
Record BaseAudioContext : Type := {
  context_id : nat;
  sampleRate : N
}.

(** The text handed to [audioWorklet.addModule].  The class bodies spliced into
    the template are constants of the library; what varies is [faustData]. *)
Inductive ProcessorCode : Type :=
| MonoProcessorCode (dspName : string) (dspMeta : string)
| PolyProcessorCode (dspName : string) (dspMeta : string) (effectMeta : option string).

(** Calls that leave the generator, in the order they are made. *)
Inductive Event : Type :=
| EvCreateMonoDSPFactory (name code args : string)
| EvCreatePolyDSPFactory (name code args : string)
| EvGetAsyncInternalMixerModule (isDouble : bool)
| EvCreateAsyncMonoDSPInstance (factory : FaustDspFactory)
| EvCreateAsyncPolyDSPInstance (voiceFactory : FaustDspFactory) (mixerModule : WasmModule)
    (voices : N) (effectFactory : option FaustDspFactory)
| EvCreateScriptProcessor (context : BaseAudioContext) (bufferSize numIn numOut : N)
| EvAddModule (context : BaseAudioContext) (processorCode : ProcessorCode) (resolved : bool)
| EvConsoleError (msg : string)
| EvNewAudioWorkletNode (context : BaseAudioContext) (name : string).

(** Process-wide state: the two static [gWorkletProcessors] sets and the trace
    of external calls made so far. *)
Record World : Type := {
  Mono_gWorkletProcessors : gset string;
  Poly_gWorkletProcessors : gset string;
  trace : list Event
}.

Definition initial_world : World :=
  {| Mono_gWorkletProcessors := ∅; Poly_gWorkletProcessors := ∅; trace := [] |}.

(** What the generators cannot decide themselves: how the metadata document
    parses and whether the hosting context accepts a module.  The answer of
    [addModule] may depend on everything that happened before. *)
Class Host : Type := {
  JSON_parse : string -> FaustDspMeta;
  addModule_resolves : list Event -> BaseAudioContext -> ProcessorCode -> bool
}.

(** The compiler collaborator ([IFaustCompiler]); [None] is [null]. *)
Record IFaustCompiler : Type := {
  createMonoDSPFactory : string -> string -> string -> option FaustDspFactory;
  createPolyDSPFactory : string -> string -> string -> option FaustDspFactory;
  getAsyncInternalMixerModule : bool -> option WasmModule
}.

(** ** Strings *)

(** [s.match(pat)] for a pattern without regular-expression operators: is
    [pat] found somewhere in [s]? *)
Fixpoint matches (s pat : string) : bool :=
  String.prefix pat s ||
  match s with
  | EmptyString => false
  | String _ s' => matches s' pat
  end.

(** [Number.prototype.toString] on an integer handle. *)
Definition toString (n : Z) : string := pretty n.

(** Truthiness of [string | null]. *)
Definition truthy (s : option string) : bool :=
  match s with
  | None | Some EmptyString => false
  | Some _ => true
  end.

(** ** A state monad over [World] *)

Definition M (A : Type) : Type := World -> A * World.

Definition ret {A} (a : A) : M A := fun w => (a, w).

Definition bind {A B} (m : M A) (k : A -> M B) : M B :=
  fun w => let (a, w') := m w in k a w'.

Notation "x <- c ;; k" := (bind c (fun x => k))
  (at level 100, c at next level, right associativity).
Notation "c ;;; k" := (bind c (fun _ => k))
  (at level 100, right associativity).

Definition emit (e : Event) : M unit :=
  fun w => (tt, {| Mono_gWorkletProcessors := Mono_gWorkletProcessors w;
                   Poly_gWorkletProcessors := Poly_gWorkletProcessors w;
                   trace := trace w ++ [e] |}).

Definition console_error (msg : string) : M unit := emit (EvConsoleError msg).

(** The [try] block of [createNode]: the processor code is assembled, turned
    into an object URL and given to [context.audioWorklet.addModule].  [true]
    when the promise resolves, [false] when control reaches the [catch]. *)
Definition addModule `{Host} (context : BaseAudioContext) (processorCode : ProcessorCode) : M bool :=
  fun w =>
    let resolved := addModule_resolves (trace w) context processorCode in
    (resolved, snd (emit (EvAddModule context processorCode resolved) w)).

(** ** Runtime objects built by the generators

    The classes live in files that are not among the sources; an object is
    represented by the arguments it was constructed from. *)

Record FaustMonoDspInstance : Type := { mono_instance_factory : FaustDspFactory }.

Record FaustPolyDspInstance : Type := {
  poly_instance_voiceFactory : FaustDspFactory;
  poly_instance_mixerModule : WasmModule;
  poly_instance_voices : N;
  poly_instance_effectFactory : option FaustDspFactory
}.

Record FaustMonoWebAudioDsp : Type := {
  mono_dsp_instance : FaustMonoDspInstance;
  mono_dsp_sampleRate : N;
  mono_dsp_sampleSize : N;
  mono_dsp_bufferSize : N
}.

Record FaustPolyWebAudioDsp : Type := {
  poly_dsp_instance : FaustPolyDspInstance;
  poly_dsp_sampleRate : N;
  poly_dsp_sampleSize : N;
  poly_dsp_bufferSize : N
}.

Record ScriptProcessorNode : Type := {
  sp_context : BaseAudioContext;
  sp_bufferSize : N;
  sp_numberOfInputChannels : N;
  sp_numberOfOutputChannels : N
}.

Inductive FaustMonoNode : Type :=
| FaustMonoScriptProcessorNode (sp : ScriptProcessorNode) (dsp : FaustMonoWebAudioDsp)
| FaustMonoAudioWorkletNode (context : BaseAudioContext) (name : string)
    (factory : FaustDspFactory) (sampleSize : N).

Inductive FaustPolyNode : Type :=
| FaustPolyScriptProcessorNode (sp : ScriptProcessorNode) (dsp : FaustPolyWebAudioDsp)
| FaustPolyAudioWorkletNode (context : BaseAudioContext) (name : string)
    (voiceFactory : FaustDspFactory) (mixerModule : WasmModule) (voices : N)
    (sampleSize : N) (effectFactory : option FaustDspFactory).

Record FaustOfflineProcessor : Type := {
  offline_dsp : FaustMonoWebAudioDsp;
  offline_bufferSize : N
}.

Definition createAsyncMonoDSPInstance (factory : FaustDspFactory) : M FaustMonoDspInstance :=
  emit (EvCreateAsyncMonoDSPInstance factory) ;;;
  ret {| mono_instance_factory := factory |}.

Definition createAsyncPolyDSPInstance (voiceFactory : FaustDspFactory) (mixerModule : WasmModule)
    (voices : N) (effectFactory : option FaustDspFactory) : M FaustPolyDspInstance :=
  emit (EvCreateAsyncPolyDSPInstance voiceFactory mixerModule voices effectFactory) ;;;
  ret {| poly_instance_voiceFactory := voiceFactory;
         poly_instance_mixerModule := mixerModule;
         poly_instance_voices := voices;
         poly_instance_effectFactory := effectFactory |}.

Definition createScriptProcessor (context : BaseAudioContext) (bufferSize numIn numOut : N)
    : M ScriptProcessorNode :=
  emit (EvCreateScriptProcessor context bufferSize numIn numOut) ;;;
  ret {| sp_context := context; sp_bufferSize := bufferSize;
         sp_numberOfInputChannels := numIn; sp_numberOfOutputChannels := numOut |}.

(** Modelled from the spec: [getNumInputs] and [getNumOutputs] of the DSP
    wrappers ([FaustWebAudioDsp.ts], not among the sources).  The spec fixes
    them at instantiation to the channel counts the metadata declares. *)
Module FaustMonoWebAudioDspAPI.
Section with_host.
Context `{Host}.

Definition getNumInputs (dsp : FaustMonoWebAudioDsp) : N :=
  inputs (JSON_parse (json (mono_instance_factory (mono_dsp_instance dsp)))).

Definition getNumOutputs (dsp : FaustMonoWebAudioDsp) : N :=
  outputs (JSON_parse (json (mono_instance_factory (mono_dsp_instance dsp)))).
End with_host.
End FaustMonoWebAudioDspAPI.

Module FaustPolyWebAudioDspAPI.
Section with_host.
Context `{Host}.

Definition getNumInputs (dsp : FaustPolyWebAudioDsp) : N :=
  inputs (JSON_parse (json (poly_instance_voiceFactory (poly_dsp_instance dsp)))).

Definition getNumOutputs (dsp : FaustPolyWebAudioDsp) : N :=
  outputs (JSON_parse (json (poly_instance_voiceFactory (poly_dsp_instance dsp)))).
End with_host.
End FaustPolyWebAudioDspAPI.

(** ** FaustMonoDspGenerator *)

Module FaustMonoDspGenerator.

Record t : Type := { fFactory : option FaustDspFactory }.

(** The constructor. *)
Definition new : t := {| fFactory := None |}.

Definition getFactory (this : t) : option FaustDspFactory := fFactory this.

(** [gWorkletProcessors.has(name)] and [gWorkletProcessors.add(name)]. *)
Definition has (name : string) : M bool :=
  fun w => (bool_decide (name ∈ Mono_gWorkletProcessors w), w).

Definition add (name : string) : M unit :=
  fun w => (tt, {| Mono_gWorkletProcessors := {[ name ]} ∪ Mono_gWorkletProcessors w;
                   Poly_gWorkletProcessors := Poly_gWorkletProcessors w;
                   trace := trace w |}).

Section with_host.
Context `{Host}.

Definition createNode (context : BaseAudioContext) (nameIn : string) (factory : FaustDspFactory)
    (sp : option bool) (bufferSize : option N) : M (option FaustMonoNode) :=
  let sp := default false sp in
  let bufferSize := default 1024%N bufferSize in
  let JSONObj := JSON_parse (json factory) in
  let sampleSize := if matches (compile_options JSONObj) "-double" then 8%N else 4%N in
  if sp then
    instance <- createAsyncMonoDSPInstance factory ;;
    let monoDsp := {| mono_dsp_instance := instance;
                      mono_dsp_sampleRate := sampleRate context;
                      mono_dsp_sampleSize := sampleSize;
                      mono_dsp_bufferSize := bufferSize |} in
    sp <- createScriptProcessor context bufferSize
            (FaustMonoWebAudioDspAPI.getNumInputs monoDsp)
            (FaustMonoWebAudioDspAPI.getNumOutputs monoDsp) ;;
    ret (Some (FaustMonoScriptProcessorNode sp monoDsp))
  else
    let name := nameIn +:+ toString (cfactory factory) in
    let create_the_AWN :=
      emit (EvNewAudioWorkletNode context name) ;;;
      ret (Some (FaustMonoAudioWorkletNode context name factory sampleSize)) in
    registered <- has name ;;
    if negb registered then
      resolved <- addModule context (MonoProcessorCode name (json factory)) ;;
      if resolved then
        add name ;;;
        create_the_AWN
      else
        console_error "=> exception raised while running createMonoNode" ;;;
        console_error "=> check that your page is served using https." ;;;
        ret None
    else create_the_AWN.

Definition compileNode (this : t) (context : BaseAudioContext) (name : string)
    (compiler : IFaustCompiler) (code args : string) (sp : option bool) (bufferSize : option N)
    : M (option FaustMonoNode * t) :=
  emit (EvCreateMonoDSPFactory name code args) ;;;
  let this := {| fFactory := createMonoDSPFactory compiler name code args |} in
  match fFactory this with
  | Some factory =>
      node <- createNode context name factory sp bufferSize ;;
      ret (node, this)
  | None => ret (None, this)
  end.

Definition createOfflineProcessor (factory : FaustDspFactory) (sampleRate bufferSize : N)
    : M (option FaustOfflineProcessor) :=
  instance <- createAsyncMonoDSPInstance factory ;;
  let JSONObj := JSON_parse (json factory) in
  let sampleSize := if matches (compile_options JSONObj) "-double" then 8%N else 4%N in
  let monoDsp := {| mono_dsp_instance := instance;
                    mono_dsp_sampleRate := sampleRate;
                    mono_dsp_sampleSize := sampleSize;
                    mono_dsp_bufferSize := bufferSize |} in
  ret (Some {| offline_dsp := monoDsp; offline_bufferSize := bufferSize |}).

End with_host.
End FaustMonoDspGenerator.

(** ** FaustPolyDspGenerator *)

Module FaustPolyDspGenerator.

Record t : Type := {
  fVoiceFactory : option FaustDspFactory;
  fEffectFactory : option FaustDspFactory
}.

Definition new : t := {| fVoiceFactory := None; fEffectFactory := None |}.

Definition getVoiceFactory (this : t) : option FaustDspFactory := fVoiceFactory this.

Definition getEffectFactory (this : t) : option FaustDspFactory := fEffectFactory this.

Definition has (name : string) : M bool :=
  fun w => (bool_decide (name ∈ Poly_gWorkletProcessors w), w).

Definition add (name : string) : M unit :=
  fun w => (tt, {| Mono_gWorkletProcessors := Mono_gWorkletProcessors w;
                   Poly_gWorkletProcessors := {[ name ]} ∪ Poly_gWorkletProcessors w;
                   trace := trace w |}).

(** The effect program used when no effect code is given: the [effect]
    definition of the voice program itself, behind a channel adaptor. *)
Definition integrated_effect (dspCode : string) : string :=
  "
adapt(1,1) = _; adapt(2,2) = _,_; adapt(1,2) = _ <: _,_; adapt(2,1) = _,_ :> _;
adaptor(F,G) = adapt(outputs(F),inputs(G));
dsp_code = environment{" +:+ dspCode +:+ "};
process = adaptor(dsp_code.process, dsp_code.effect) : dsp_code.effect;".

Section with_host.
Context `{Host}.

Definition createNode (context : BaseAudioContext) (nameIn : string)
    (voiceFactory : FaustDspFactory) (mixerModule : WasmModule) (voices : N)
    (sp : option bool) (effectFactory : option FaustDspFactory) (bufferSize : option N)
    : M (option FaustPolyNode) :=
  let sp := default false sp in
  let bufferSize := default 1024%N bufferSize in
  let JSONObj := JSON_parse (json voiceFactory) in
  let sampleSize := if matches (compile_options JSONObj) "-double" then 8%N else 4%N in
  if sp then
    instance <- createAsyncPolyDSPInstance voiceFactory mixerModule voices effectFactory ;;
    let polyDsp := {| poly_dsp_instance := instance;
                      poly_dsp_sampleRate := sampleRate context;
                      poly_dsp_sampleSize := sampleSize;
                      poly_dsp_bufferSize := bufferSize |} in
    sp <- createScriptProcessor context bufferSize
            (FaustPolyWebAudioDspAPI.getNumInputs polyDsp)
            (FaustPolyWebAudioDspAPI.getNumOutputs polyDsp) ;;
    ret (Some (FaustPolyScriptProcessorNode sp polyDsp))
  else
    let name := nameIn +:+ toString (cfactory voiceFactory) +:+ "_poly" in
    let create_the_AWN :=
      emit (EvNewAudioWorkletNode context name) ;;;
      ret (Some (FaustPolyAudioWorkletNode context name voiceFactory mixerModule voices
                   sampleSize effectFactory)) in
    registered <- has name ;;
    if negb registered then
      resolved <- addModule context
                    (PolyProcessorCode name (json voiceFactory) (json <$> effectFactory)) ;;
      if resolved then
        add name ;;;
        create_the_AWN
      else
        console_error "=> exception raised while running createMonoNode" ;;;
        console_error "=> check that your page is served using https." ;;;
        ret None
    else create_the_AWN.

Definition compileNode (this : t) (context : BaseAudioContext) (name : string)
    (compiler : IFaustCompiler) (dspCode : string) (effectCode : option string) (args : string)
    (voices : N) (sp : option bool) (bufferSize : option N)
    : M (option FaustPolyNode * t) :=
  let voiceDsp := dspCode in
  let effect_dsp := if truthy effectCode then default "" effectCode
                    else integrated_effect dspCode in
  emit (EvCreatePolyDSPFactory name voiceDsp args) ;;;
  match createPolyDSPFactory compiler name voiceDsp args with
  | None => ret (None, this)
  | Some voiceFactory =>
      emit (EvCreatePolyDSPFactory name effect_dsp args) ;;;
      let effectFactory := createPolyDSPFactory compiler name effect_dsp args in
      let JSONObj := JSON_parse (json voiceFactory) in
      let isDouble := matches (compile_options JSONObj) "-double" in
      emit (EvGetAsyncInternalMixerModule isDouble) ;;;
      match getAsyncInternalMixerModule compiler isDouble with
      | Some mixerModule =>
          node <- createNode context name voiceFactory mixerModule voices sp effectFactory
                    bufferSize ;;
          ret (node, this)
      | None => ret (None, this)
      end
  end.

End with_host.
End FaustPolyDspGenerator.

(** ** The control surface of a built node

    Modelled from the spec: the node classes ([FaustAudioWorkletNode.ts],
    [FaustScriptProcessorNode.ts]) are not among the sources.  Section 6 of the
    specification lists what a built node exposes; a live node is the built
    node together with its current parameter values and whether it has been
    destroyed.  The channel counts are read from the construction data. *)
Module FaustNode.

Inductive Op : Type :=
| SetParam (name : string) (value : Z)
| KeyOn (note gain : Z)
| KeyOff (note : Z)
| AllNotesOff
| CtrlChange (channel ctrl value : Z)
| PitchWheel (channel wheel : Z)
| Destroy.

Record Live (Node : Type) : Type := {
  built : Node;
  params : gmap string Z;
  held_notes : list Z;
  destroyed : bool
}.
Arguments built {Node} _.
Arguments params {Node} _.
Arguments held_notes {Node} _.
Arguments destroyed {Node} _.

Definition start {Node} (n : Node) : Live Node :=
  {| built := n; params := ∅; held_notes := []; destroyed := false |}.

Definition getParam {Node} (l : Live Node) (name : string) : option Z := params l !! name.

Definition apply {Node} (l : Live Node) (op : Op) : Live Node :=
  match op with
  | SetParam name value =>
      {| built := built l; params := <[name := value]> (params l);
         held_notes := held_notes l; destroyed := destroyed l |}
  | KeyOn note _ =>
      {| built := built l; params := params l;
         held_notes := note :: held_notes l; destroyed := destroyed l |}
  | KeyOff note =>
      {| built := built l; params := params l;
         held_notes := List.filter (fun n => negb (Z.eqb n note)) (held_notes l);
         destroyed := destroyed l |}
  | AllNotesOff =>
      {| built := built l; params := params l; held_notes := []; destroyed := destroyed l |}
  | CtrlChange _ _ _ | PitchWheel _ _ => l
  | Destroy =>
      {| built := built l; params := params l; held_notes := []; destroyed := true |}
  end.

Definition apply_all {Node} (l : Live Node) (ops : list Op) : Live Node :=
  fold_left apply ops l.

Section with_host.
Context `{Host}.

Definition mono_getNumInputs (l : Live FaustMonoNode) : N :=
  match built l with
  | FaustMonoScriptProcessorNode _ dsp => FaustMonoWebAudioDspAPI.getNumInputs dsp
  | FaustMonoAudioWorkletNode _ _ factory _ => inputs (JSON_parse (json factory))
  end.

Definition mono_getNumOutputs (l : Live FaustMonoNode) : N :=
  match built l with
  | FaustMonoScriptProcessorNode _ dsp => FaustMonoWebAudioDspAPI.getNumOutputs dsp
  | FaustMonoAudioWorkletNode _ _ factory _ => outputs (JSON_parse (json factory))
  end.

Definition poly_getNumInputs (l : Live FaustPolyNode) : N :=
  match built l with
  | FaustPolyScriptProcessorNode _ dsp => FaustPolyWebAudioDspAPI.getNumInputs dsp
  | FaustPolyAudioWorkletNode _ _ voiceFactory _ _ _ _ => inputs (JSON_parse (json voiceFactory))
  end.

Definition poly_getNumOutputs (l : Live FaustPolyNode) : N :=
  match built l with
  | FaustPolyScriptProcessorNode _ dsp => FaustPolyWebAudioDspAPI.getNumOutputs dsp
  | FaustPolyAudioWorkletNode _ _ voiceFactory _ _ _ _ => outputs (JSON_parse (json voiceFactory))
  end.

End with_host.
End FaustNode.

(** ** Sequences of generator calls

    One generator object of each class lives in the process; [Call] lists the
    methods a client can invoke on them. *)

Inductive Call : Type :=
| MonoCreateNode (context : BaseAudioContext) (nameIn : string) (factory : FaustDspFactory)
    (sp : option bool) (bufferSize : option N)
| MonoCompileNode (context : BaseAudioContext) (name : string) (compiler : IFaustCompiler)
    (code args : string) (sp : option bool) (bufferSize : option N)
| MonoCreateOfflineProcessor (factory : FaustDspFactory) (sampleRate bufferSize : N)
| PolyCreateNode (context : BaseAudioContext) (nameIn : string) (voiceFactory : FaustDspFactory)
    (mixerModule : WasmModule) (voices : N) (sp : option bool)
    (effectFactory : option FaustDspFactory) (bufferSize : option N)
| PolyCompileNode (context : BaseAudioContext) (name : string) (compiler : IFaustCompiler)
    (dspCode : string) (effectCode : option string) (args : string) (voices : N)
    (sp : option bool) (bufferSize : option N).

Record Process : Type := {
  world : World;
  mono_generator : FaustMonoDspGenerator.t;
  poly_generator : FaustPolyDspGenerator.t
}.

Definition fresh_process : Process :=
  {| world := initial_world;
     mono_generator := FaustMonoDspGenerator.new;
     poly_generator := FaustPolyDspGenerator.new |}.

Section with_host.
Context `{Host}.

Definition step (p : Process) (c : Call) : Process :=
  match c with
  | MonoCreateNode context nameIn factory sp bufferSize =>
      let (_, w) := FaustMonoDspGenerator.createNode context nameIn factory sp bufferSize
                      (world p) in
      {| world := w; mono_generator := mono_generator p; poly_generator := poly_generator p |}
  | MonoCompileNode context name compiler code args sp bufferSize =>
      let '((_, this), w) :=
        FaustMonoDspGenerator.compileNode (mono_generator p) context name compiler code args
          sp bufferSize (world p) in
      {| world := w; mono_generator := this; poly_generator := poly_generator p |}
  | MonoCreateOfflineProcessor factory sampleRate bufferSize =>
      let (_, w) := FaustMonoDspGenerator.createOfflineProcessor factory sampleRate bufferSize
                      (world p) in
      {| world := w; mono_generator := mono_generator p; poly_generator := poly_generator p |}
  | PolyCreateNode context nameIn voiceFactory mixerModule voices sp effectFactory bufferSize =>
      let (_, w) := FaustPolyDspGenerator.createNode context nameIn voiceFactory mixerModule
                      voices sp effectFactory bufferSize (world p) in
      {| world := w; mono_generator := mono_generator p; poly_generator := poly_generator p |}
  | PolyCompileNode context name compiler dspCode effectCode args voices sp bufferSize =>
      let '((_, this), w) :=
        FaustPolyDspGenerator.compileNode (poly_generator p) context name compiler dspCode
          effectCode args voices sp bufferSize (world p) in
      {| world := w; mono_generator := mono_generator p; poly_generator := this |}
  end.

Definition run (p : Process) (calls : list Call) : Process := fold_left step calls p.

End with_host.

(** ** Observations used in the statements *)

(** The world after some more external calls, registries untouched. *)
Definition extend (w : World) (events : list Event) : World :=
  {| Mono_gWorkletProcessors := Mono_gWorkletProcessors w;
     Poly_gWorkletProcessors := Poly_gWorkletProcessors w;
     trace := trace w ++ events |}.

(** [flag] occurs somewhere in [opts]. *)
Definition contains (opts flag : string) : Prop :=
  exists before after, opts = before +:+ flag +:+ after.

Definition is_addModule (e : Event) : bool :=
  match e with EvAddModule _ _ _ => true | _ => false end.

Definition is_registration (e : Event) : bool :=
  match e with EvAddModule _ _ true => true | _ => false end.

(** Successful registrations of a processor name, per generator class. *)
Definition mono_registration (key : string) (e : Event) : bool :=
  match e with
  | EvAddModule _ (MonoProcessorCode n _) true => bool_decide (n = key)
  | _ => false
  end.

Definition poly_registration (key : string) (e : Event) : bool :=
  match e with
  | EvAddModule _ (PolyProcessorCode n _ _) true => bool_decide (n = key)
  | _ => false
  end.

Definition count (p : Event -> bool) (tr : list Event) : nat := length (List.filter p tr).


Definition poly_node_sampleSize (n : FaustPolyNode) : N :=
  match n with
  | FaustPolyScriptProcessorNode _ dsp => poly_dsp_sampleSize dsp
  | FaustPolyAudioWorkletNode _ _ _ _ _ sampleSize _ => sampleSize
  end.

Definition poly_node_effectFactory (n : FaustPolyNode) : option FaustDspFactory :=
  match n with
  | FaustPolyScriptProcessorNode _ dsp => poly_instance_effectFactory (poly_dsp_instance dsp)
  | FaustPolyAudioWorkletNode _ _ _ _ _ _ effectFactory => effectFactory
  end.

(** The registries account for the successful registrations in the trace. *)
Definition registry_accounted (w : World) : Prop :=
  forall key,
    count (mono_registration key) (trace w)
      = (if bool_decide (key ∈ Mono_gWorkletProcessors w) then 1 else 0) /\
    count (poly_registration key) (trace w)
      = (if bool_decide (key ∈ Poly_gWorkletProcessors w) then 1 else 0).

(** Nothing is ever removed from the registries between [w] and [w']. *)
Definition registries_included (w w' : World) : Prop :=
  Mono_gWorkletProcessors w ⊆ Mono_gWorkletProcessors w' /\
  Poly_gWorkletProcessors w ⊆ Poly_gWorkletProcessors w'.

(** ** Hosts and inputs for examples *)

(** A host that takes the document text for its compile options and accepts
    every module. *)
Definition accepting_host : Host :=
  {| JSON_parse := fun s => {| compile_options := s; inputs := 1; outputs := 2 |};
     addModule_resolves := fun _ _ _ => true |}.

(** A host that refuses the first module it is offered and accepts from then on. *)
Definition refusing_once_host : Host :=
  {| JSON_parse := fun s => {| compile_options := s; inputs := 1; outputs := 2 |};
     addModule_resolves := fun tr _ _ => bool_decide (count is_addModule tr ≠ 0) |}.

(** A host that refuses every module (a page not served over https). *)
Definition refusing_host : Host :=
  {| JSON_parse := fun s => {| compile_options := s; inputs := 1; outputs := 2 |};
     addModule_resolves := fun _ _ _ => false |}.

Definition ctx0 : BaseAudioContext := {| context_id := 0; sampleRate := 44100 |}.
Definition ctx1 : BaseAudioContext := {| context_id := 1; sampleRate := 48000 |}.

Definition osc_single : FaustDspFactory :=
  {| cfactory := 5; code := [Byte.x00; Byte.x61; Byte.x73; Byte.x6d];
     module := {| wasm_binary := [Byte.x00; Byte.x61; Byte.x73; Byte.x6d] |};
     json := "-lang wasm-ib -single -ftz 2"; poly := false |}.

(** The same binary and document under another compiler handle. *)
Definition osc_single_again : FaustDspFactory :=
  {| cfactory := 6; code := code osc_single; module := module osc_single;
     json := json osc_single; poly := false |}.

Definition osc_double : FaustDspFactory :=
  {| cfactory := 7; code := [Byte.x00; Byte.x61; Byte.x73; Byte.x6d; Byte.x01];
     module := {| wasm_binary := [Byte.x00; Byte.x61; Byte.x73; Byte.x6d; Byte.x01] |};
     json := "-lang wasm-ib -double -ftz 2"; poly := false |}.

Definition mixer32 : WasmModule := {| wasm_binary := [Byte.x00; Byte.x61] |}.

(** A compiler that knows one voice program and no effect. *)
Definition voice_only_compiler : IFaustCompiler :=
  {| createMonoDSPFactory := fun _ code _ =>
       if String.eqb code "process = _;" then Some osc_single else None;
     createPolyDSPFactory := fun _ code _ =>
       if String.eqb code "process = _;" then Some osc_single else None;
     getAsyncInternalMixerModule := fun _ => Some mixer32 |}.

(** A compiler that accepts every program. *)
Definition generous_compiler : IFaustCompiler :=
  {| createMonoDSPFactory := fun _ _ _ => Some osc_single;
     createPolyDSPFactory := fun _ code _ =>
       if String.eqb code "process = _;" then Some osc_single else Some osc_double;
     getAsyncInternalMixerModule := fun _ => Some mixer32 |}.

(** A compiler that rejects every program. *)
Definition rejecting_compiler : IFaustCompiler :=
  {| createMonoDSPFactory := fun _ _ _ => None;
     createPolyDSPFactory := fun _ _ _ => None;
     getAsyncInternalMixerModule := fun _ => Some mixer32 |}.

(** ** Further observations on calls and traces *)

(** The call asks for the block-synchronous backend (an offline processor
    never uses a worklet). *)
Definition block_synchronous (c : Call) : bool :=
  match c with
  | MonoCreateNode _ _ _ sp _ => default false sp
  | MonoCompileNode _ _ _ _ _ sp _ => default false sp
  | MonoCreateOfflineProcessor _ _ _ => true
  | PolyCreateNode _ _ _ _ _ sp _ _ => default false sp
  | PolyCompileNode _ _ _ _ _ _ _ sp _ => default false sp
  end.

Definition is_mono_compileNode (c : Call) : bool :=
  match c with MonoCompileNode _ _ _ _ _ _ _ => true | _ => false end.


(** The processor name carried by a module, whichever generator made it. *)
Definition registered_name (key : string) (e : Event) : bool :=
  mono_registration key e || poly_registration key e.

(** The last character of a string. *)
Fixpoint last_char (s : string) : option Ascii.ascii :=
  match s with
  | EmptyString => None
  | String c EmptyString => Some c
  | String _ s' => last_char s'
  end.

(** A decimal digit, by character code. *)
Definition is_digit (c : Ascii.ascii) : bool :=
  let n := Ascii.nat_of_ascii c in (48 <=? n) && (n <=? 57).

(** The names the generators hand to [addModule]: a mono name ends with the
    digits of a handle, a poly name with "_poly". *)
Definition well_named (e : Event) : Prop :=
  match e with
  | EvAddModule _ (MonoProcessorCode name _) _ =>
      exists nameIn handle, name = nameIn +:+ toString handle
  | EvAddModule _ (PolyProcessorCode name _ _) _ =>
      exists nameIn handle, name = nameIn +:+ toString handle +:+ "_poly"
  | _ => True
  end.

(** ** JavaScript string methods used by the web plugin *)

Module JS.

(** [s.lastIndexOf(pat)], searching from position [i] of the whole string on:
    the greatest index at which [pat] starts, or -1. *)
Fixpoint lastIndexOf_from (s pat : string) (i : Z) : Z :=
  match s with
  | EmptyString => if String.prefix pat s then i else (-1)%Z
  | String _ s' =>
      let later := lastIndexOf_from s' pat (i + 1) in
      if (0 <=? later)%Z then later
      else if String.prefix pat s then i else (-1)%Z
  end.

Definition lastIndexOf (s pat : string) : Z := lastIndexOf_from s pat 0.

(** [s.substring(indexStart, indexEnd)]: both indices are clamped to
    [0, length] and swapped when out of order. *)
Definition substring (s : string) (indexStart indexEnd : Z) : string :=
  let len := Z.of_nat (String.length s) in
  let clamp i := Z.max 0 (Z.min i len) in
  let a := clamp indexStart in
  let b := clamp indexEnd in
  String.substring (Z.to_nat (Z.min a b)) (Z.to_nat (Z.max a b - Z.min a b)) s.

End JS.

(** ** The web audio plugin (test/web/index.js) *)

Module WebPlugin.

Record URL : Type := { href : string }.

Definition getBasetUrl (relativeURL : URL) : string :=
  let baseURL :=
    JS.substring (href relativeURL) 0 (JS.lastIndexOf (href relativeURL) "/") in
  baseURL.

(** What the plugin loads over the network.  [None] stands for a rejected
    promise: the request failed, the body was not JSON, or the binary did not
    compile. *)
Record Server : Type := {
  fetch_json : string -> option string;
  fetch_descriptor : string -> option (gmap string string);
  compileStreaming : string -> option WasmModule
}.

Inductive Error : Type :=
| TypeError (message : string)
| FetchFailed (url : string).

Inductive Outcome (A : Type) : Type :=
| Resolved (value : A)
| Rejected (error : Error).
Arguments Resolved {A} _.
Arguments Rejected {A} _.

(** [FaustDspDistribution], as the plugin fills it in. *)
Record FaustDspDistribution : Type := {
  dspMeta : string;
  dspModule : WasmModule;
  effectMeta : option string;
  effectModule : option WasmModule;
  mixerModule : option WasmModule
}.

(** The node [createAudioNode] returns, by what went into it: the arguments of
    [addFunctionModule], the arguments of [new FaustNode] and the state set. *)
Record PluginNode : Type := {
  processor_id : string;
  processor_voices : N;
  processor_dspMeta : string;
  processor_effectMeta : option string;
  faustNode_context : BaseAudioContext;
  faustNode_name : string;
  faustNode_dsp : FaustDspDistribution;
  faustNode_voices : N;
  node_state : option string
}.

Module FaustPingPongDelayPlugin.

Record t : Type := {
  moduleId : string;
  audioContext : BaseAudioContext;
  descriptor : gmap string string;
  _baseURL : string;
  _descriptorUrl : string
}.

(** The field initialisers; [here] is [new URL('.', import.meta.url)]. *)
Definition new (here : URL) (moduleId : string) (audioContext : BaseAudioContext)
    (descriptor : gmap string string) : t :=
  let _baseURL := getBasetUrl here in
  {| moduleId := moduleId; audioContext := audioContext; descriptor := descriptor;
     _baseURL := _baseURL;
     _descriptorUrl := _baseURL +:+ "/descriptor.json" |}.

(** [Object.assign(this.descriptor, descriptor)]: the loaded keys win. *)
Definition _loadDescriptor (server : Server) (this : t) : Outcome t :=
  let url := _descriptorUrl this in
  if negb (truthy (Some url)) then Rejected (TypeError "Descriptor not found")
  else
    match fetch_descriptor server url with
    | None => Rejected (FetchFailed url)
    | Some loaded =>
        Resolved {| moduleId := moduleId this; audioContext := audioContext this;
                    descriptor := loaded ∪ descriptor this;
                    _baseURL := _baseURL this;
                    _descriptorUrl := _descriptorUrl this |}
    end.

(** The [try] block of [createAudioNode]: the three optional parts are loaded
    in order and the first failure ends the block, keeping what was assigned
    so far.  The second component lists the addresses requested. *)
Definition load_optional_parts (server : Server) (base : string)
    (faustDsp : FaustDspDistribution) : FaustDspDistribution * list string :=
  let u1 := base +:+ "/effectMeta.json" in
  let u2 := base +:+ "/effectModule.wasm" in
  let u3 := base +:+ "/mixerModule.wasm" in
  match fetch_json server u1 with
  | None => (faustDsp, [u1])
  | Some em =>
      let faustDsp1 := {| dspMeta := dspMeta faustDsp; dspModule := dspModule faustDsp;
                          effectMeta := Some em; effectModule := effectModule faustDsp;
                          mixerModule := mixerModule faustDsp |} in
      match compileStreaming server u2 with
      | None => (faustDsp1, [u1; u2])
      | Some emod =>
          let faustDsp2 := {| dspMeta := dspMeta faustDsp1; dspModule := dspModule faustDsp1;
                              effectMeta := effectMeta faustDsp1;
                              effectModule := Some emod;
                              mixerModule := mixerModule faustDsp1 |} in
          match compileStreaming server u3 with
          | None => (faustDsp2, [u1; u2; u3])
          | Some mixer =>
              ({| dspMeta := dspMeta faustDsp2; dspModule := dspModule faustDsp2;
                  effectMeta := effectMeta faustDsp2;
                  effectModule := effectModule faustDsp2;
                  mixerModule := Some mixer |}, [u1; u2; u3])
          end
      end
  end.

(** [createAudioNode]; the calls after the [try] block ([addFunctionModule],
    the node constructors, the parameter manager) are taken to succeed. *)
Definition createAudioNode (server : Server) (this : t) (initialState : option string)
    : Outcome PluginNode * list string :=
  let base := _baseURL this in
  match fetch_json server (base +:+ "/dspMeta.json") with
  | None => (Rejected (FetchFailed (base +:+ "/dspMeta.json")), [base +:+ "/dspMeta.json"])
  | Some dspMeta =>
      match compileStreaming server (base +:+ "/dspModule.wasm") with
      | None =>
          (Rejected (FetchFailed (base +:+ "/dspModule.wasm")),
           [base +:+ "/dspMeta.json"; base +:+ "/dspModule.wasm"])
      | Some dspModule =>
          let (faustDsp, requested) :=
            load_optional_parts server base
              {| dspMeta := dspMeta; dspModule := dspModule; effectMeta := None;
                 effectModule := None; mixerModule := None |} in
          (Resolved {| processor_id := moduleId this +:+ "Faust";
                       processor_voices := 0;
                       processor_dspMeta := dspMeta;
                       processor_effectMeta := effectMeta faustDsp;
                       faustNode_context := audioContext this;
                       faustNode_name := moduleId this +:+ "Faust";
                       faustNode_dsp := faustDsp;
                       faustNode_voices := 0;
                       node_state := initialState |},
           [base +:+ "/dspMeta.json"; base +:+ "/dspModule.wasm"] ++ requested)
      end
  end.

End FaustPingPongDelayPlugin.

(** A server that has the DSP and a mixer module but no effect, and a plugin
    served from it. *)
Definition dsp_only_server : Server :=
  {| fetch_json := fun url =>
       if String.eqb url "https://host/plugin/dspMeta.json" then Some "dsp" else None;
     fetch_descriptor := fun _ => None;
     compileStreaming := fun url =>
       if String.eqb url "https://host/plugin/dspModule.wasm" then Some mixer32
       else if String.eqb url "https://host/plugin/mixerModule.wasm" then Some mixer32
       else None |}.

Definition demo_plugin : FaustPingPongDelayPlugin.t :=
  FaustPingPongDelayPlugin.new {| href := "https://host/plugin/" |} "pingpong" ctx0 ∅.

End WebPlugin.

(** ** The service worker (assets/standalone/service-worker.js)

    The Cache API as the worker uses it: named caches in creation order, each
    a map from request address to response. *)
Module ServiceWorker.

Record Response : Type := { ok : bool; body : string }.

(** The network: [None] is a rejected [fetch]. *)
Definition Network : Type := string -> option Response.

Definition CacheStorage : Type := list (string * gmap string Response).

(** [caches.match(request)]: the first cache that has the request answers. *)
Fixpoint caches_match (request : string) (storage : CacheStorage) : option Response :=
  match storage with
  | [] => None
  | (_, cache) :: rest =>
      match cache !! request with
      | Some response => Some response
      | None => caches_match request rest
      end
  end.

(** The cache behind [caches.open(cacheName)], empty when it is new. *)
Fixpoint opened (cacheName : string) (storage : CacheStorage) : gmap string Response :=
  match storage with
  | [] => ∅
  | (name, cache) :: rest =>
      if String.eqb name cacheName then cache else opened cacheName rest
  end.

(** The storage after the cache of that name has been replaced (or created at
    the end). *)
Fixpoint stored (cacheName : string) (cache : gmap string Response) (storage : CacheStorage)
    : CacheStorage :=
  match storage with
  | [] => [(cacheName, cache)]
  | (name, old) :: rest =>
      if String.eqb name cacheName then (name, cache) :: rest
      else (name, old) :: stored cacheName cache rest
  end.

(** [cache.addAll(urls)]: every address is fetched; one failed or non-ok
    answer rejects the whole call and nothing is stored. *)
Fixpoint addAll (network : Network) (urls : list string) (cache : gmap string Response)
    : option (gmap string Response) :=
  match urls with
  | [] => Some cache
  | url :: rest =>
      match network url with
      | Some response =>
          if ok response then addAll network rest (<[url := response]> cache) else None
      | None => None
      end
  end.

Definition precached : list string :=
  ["/faust-ui/index.js"; "/faustwasm/index.js"; "/faustwasm/styles.css"; "/index.html";
   "/FAUST_DSP.js"; "/FAUST_DSP.wasm"; "/FAUST_DSP.json"].

(** The [install] listener: the storage afterwards and what was logged. *)
Definition on_install (network : Network) (storage : CacheStorage)
    : CacheStorage * list string :=
  let cache := opened "FAUST_DSP-static-v1" storage in
  match addAll network precached cache with
  | Some cache' => (stored "FAUST_DSP-static-v1" cache' storage, [])
  | None =>
      (stored "FAUST_DSP-static-v1" cache storage,
       ["Failed to cache resources during install:"])
  end.

(** The [fetch] listener: what [respondWith] is given; [None] is [undefined]. *)
Definition on_fetch (network : Network) (storage : CacheStorage) (request : string)
    : option Response :=
  match caches_match request storage with
  | Some response => Some response
  | None =>
      match network request with
      | Some response => Some response
      | None => caches_match "/offline.html" storage
      end
  end.

(** A network that serves every address, and one that is down. *)
Definition online : Network :=
  fun url => Some {| ok := true; body := url |}.

Definition offline : Network := fun _ => None.

End ServiceWorker.

(** * Properties *)

(** ** Examples: the code run on concrete inputs *)

Example mono_first_build_registers :
  @FaustMonoDspGenerator.createNode accepting_host ctx0 "osc" osc_single None None initial_world
  = (Some (FaustMonoAudioWorkletNode ctx0 "osc5" osc_single 4),
     {| Mono_gWorkletProcessors := {[ "osc5" ]};
        Poly_gWorkletProcessors := ∅;
        trace := [EvAddModule ctx0 (MonoProcessorCode "osc5" (json osc_single)) true;
                  EvNewAudioWorkletNode ctx0 "osc5"] |}).
Proof. vm_compute. reflexivity. Qed.

(** ** Strings: [matches] decides [contains] *)

Lemma append_cons (c : Ascii.ascii) (s t : string) : String c s +:+ t = String c (s +:+ t).
Proof. reflexivity. Qed.

Lemma prefix_true_iff (p s : string) :
  String.prefix p s = true <-> exists rest, s = p +:+ rest.
Proof.
  revert s. induction p as [|c p IH]; intros s.
  - split; [intros _; by exists s | by destruct s].
  - destruct s as [|d s]; simpl.
    + split; [done | intros [rest Hrest]; discriminate].
    + destruct (Ascii.ascii_dec c d) as [->|Hne].
      * rewrite IH. split; intros [rest Hrest]; exists rest;
          rewrite append_cons in *; congruence.
      * split; [done | intros [rest Hrest]; rewrite append_cons in Hrest; congruence].
Qed.

Lemma matches_contains (s pat : string) : matches s pat = true <-> contains s pat.
Proof.
  unfold contains. induction s as [|c s IH].
  - change (matches "" pat) with (String.prefix pat "" || false).
    rewrite orb_false_r, prefix_true_iff. split.
    + intros [rest Hrest]. by exists "", rest.
    + intros [[|c before] [after Heq]]; [by exists after | by rewrite append_cons in Heq].
  - change (matches (String c s) pat)
      with (String.prefix pat (String c s) || matches s pat).
    rewrite orb_true_iff, prefix_true_iff, IH. split.
    + intros [[rest Hrest] | (before & after & Heq)].
      * by exists "", rest.
      * exists (String c before), after. by rewrite append_cons, Heq.
    + intros [[|d before] [after Heq]].
      * left. by exists after.
      * right. exists before, after. rewrite append_cons in Heq. congruence.
Qed.

Lemma matches_not_contains (s pat : string) : matches s pat = false <-> ~ contains s pat.
Proof.
  rewrite <- matches_contains. destruct (matches s pat); split; congruence.
Qed.

(** ** Counting events *)

Lemma count_app (p : Event -> bool) (tr1 tr2 : list Event) :
  count p (tr1 ++ tr2) = count p tr1 + count p tr2.
Proof. unfold count. by rewrite List.filter_app, length_app. Qed.

Lemma count_extend_none (p : Event -> bool) (tr evs : list Event) :
  (forall e, p e = true -> is_registration e = true) ->
  forallb (fun e => negb (is_registration e)) evs = true ->
  count p (tr ++ evs) = count p tr.
Proof.
  intros Hp Hnone. rewrite count_app. unfold count.
  induction evs as [|e evs IH]; simpl in *; [lia|].
  apply andb_true_iff in Hnone as [He Hevs].
  destruct (p e) eqn:Hpe.
  - apply Hp in Hpe. rewrite Hpe in He. done.
  - by apply IH.
Qed.

Lemma mono_registration_is_registration (key : string) (e : Event) :
  mono_registration key e = true -> is_registration e = true.
Proof. destruct e as [| | | | | |? [] []| |]; done. Qed.

Lemma poly_registration_is_registration (key : string) (e : Event) :
  poly_registration key e = true -> is_registration e = true.
Proof. destruct e as [| | | | | |? [] []| |]; done. Qed.

Section generator_facts.
Context `{Host}.

(** ** One call of [createNode], case by case *)

(** Block-synchronous backend. *)
Lemma mono_createNode_script context nameIn factory bufferSize w :
  FaustMonoDspGenerator.createNode context nameIn factory (Some true) bufferSize w
  = let size := if matches (compile_options (JSON_parse (json factory))) "-double"
                then 8%N else 4%N in
    let buffer := default 1024%N bufferSize in
    let dsp := {| mono_dsp_instance := {| mono_instance_factory := factory |};
                  mono_dsp_sampleRate := sampleRate context;
                  mono_dsp_sampleSize := size;
                  mono_dsp_bufferSize := buffer |} in
    (Some (FaustMonoScriptProcessorNode
             {| sp_context := context; sp_bufferSize := buffer;
                sp_numberOfInputChannels := inputs (JSON_parse (json factory));
                sp_numberOfOutputChannels := outputs (JSON_parse (json factory)) |} dsp),
     extend w [EvCreateAsyncMonoDSPInstance factory;
               EvCreateScriptProcessor context buffer
                 (inputs (JSON_parse (json factory))) (outputs (JSON_parse (json factory)))]).
Proof.
  unfold FaustMonoDspGenerator.createNode, extend, bind, ret, createAsyncMonoDSPInstance,
    createScriptProcessor, emit. simpl. by rewrite <- app_assoc.
Qed.

Lemma poly_createNode_script context nameIn voiceFactory mixerModule voices effectFactory
    bufferSize w :
  FaustPolyDspGenerator.createNode context nameIn voiceFactory mixerModule voices (Some true)
    effectFactory bufferSize w
  = let size := if matches (compile_options (JSON_parse (json voiceFactory))) "-double"
                then 8%N else 4%N in
    let buffer := default 1024%N bufferSize in
    let dsp := {| poly_dsp_instance :=
                    {| poly_instance_voiceFactory := voiceFactory;
                       poly_instance_mixerModule := mixerModule;
                       poly_instance_voices := voices;
                       poly_instance_effectFactory := effectFactory |};
                  poly_dsp_sampleRate := sampleRate context;
                  poly_dsp_sampleSize := size;
                  poly_dsp_bufferSize := buffer |} in
    (Some (FaustPolyScriptProcessorNode
             {| sp_context := context; sp_bufferSize := buffer;
                sp_numberOfInputChannels := inputs (JSON_parse (json voiceFactory));
                sp_numberOfOutputChannels := outputs (JSON_parse (json voiceFactory)) |} dsp),
     extend w [EvCreateAsyncPolyDSPInstance voiceFactory mixerModule voices effectFactory;
               EvCreateScriptProcessor context buffer
                 (inputs (JSON_parse (json voiceFactory)))
                 (outputs (JSON_parse (json voiceFactory)))]).
Proof.
  unfold FaustPolyDspGenerator.createNode, extend, bind, ret, createAsyncPolyDSPInstance,
    createScriptProcessor, emit. simpl. by rewrite <- app_assoc.
Qed.

(** Worklet backend, name already registered. *)
Lemma mono_createNode_hit context nameIn factory sp bufferSize w :
  default false sp = false ->
  nameIn +:+ toString (cfactory factory) ∈ Mono_gWorkletProcessors w ->
  FaustMonoDspGenerator.createNode context nameIn factory sp bufferSize w
  = let name := nameIn +:+ toString (cfactory factory) in
    (Some (FaustMonoAudioWorkletNode context name factory
             (if matches (compile_options (JSON_parse (json factory))) "-double"
              then 8%N else 4%N)),
     extend w [EvNewAudioWorkletNode context name]).
Proof.
  intros Hsp Hin.
  unfold FaustMonoDspGenerator.createNode, FaustMonoDspGenerator.has, bind. rewrite Hsp.
  by rewrite bool_decide_eq_true_2.
Qed.

Lemma poly_createNode_hit context nameIn voiceFactory mixerModule voices sp effectFactory
    bufferSize w :
  default false sp = false ->
  nameIn +:+ toString (cfactory voiceFactory) +:+ "_poly" ∈ Poly_gWorkletProcessors w ->
  FaustPolyDspGenerator.createNode context nameIn voiceFactory mixerModule voices sp
    effectFactory bufferSize w
  = let name := nameIn +:+ toString (cfactory voiceFactory) +:+ "_poly" in
    (Some (FaustPolyAudioWorkletNode context name voiceFactory mixerModule voices
             (if matches (compile_options (JSON_parse (json voiceFactory))) "-double"
              then 8%N else 4%N) effectFactory),
     extend w [EvNewAudioWorkletNode context name]).
Proof.
  intros Hsp Hin.
  unfold FaustPolyDspGenerator.createNode, FaustPolyDspGenerator.has, bind. rewrite Hsp.
  by rewrite bool_decide_eq_true_2.
Qed.

(** Worklet backend, name not registered yet: [addModule] is called once, and
    what follows depends on its answer. *)
Lemma mono_createNode_miss context nameIn factory sp bufferSize w :
  default false sp = false ->
  nameIn +:+ toString (cfactory factory) ∉ Mono_gWorkletProcessors w ->
  FaustMonoDspGenerator.createNode context nameIn factory sp bufferSize w
  = let name := nameIn +:+ toString (cfactory factory) in
    let processorCode := MonoProcessorCode name (json factory) in
    if addModule_resolves (trace w) context processorCode then
      (Some (FaustMonoAudioWorkletNode context name factory
               (if matches (compile_options (JSON_parse (json factory))) "-double"
                then 8%N else 4%N)),
       {| Mono_gWorkletProcessors := {[ name ]} ∪ Mono_gWorkletProcessors w;
          Poly_gWorkletProcessors := Poly_gWorkletProcessors w;
          trace := trace w ++ [EvAddModule context processorCode true;
                               EvNewAudioWorkletNode context name] |})
    else
      (None,
       extend w [EvAddModule context processorCode false;
                 EvConsoleError "=> exception raised while running createMonoNode";
                 EvConsoleError "=> check that your page is served using https."]).
Proof.
  intros Hsp Hout.
  unfold FaustMonoDspGenerator.createNode, FaustMonoDspGenerator.has,
    FaustMonoDspGenerator.add, addModule, console_error, extend, bind, ret, emit.
  rewrite Hsp. rewrite bool_decide_eq_false_2 by done. simpl.
  destruct (addModule_resolves _ _ _); simpl; by rewrite <- ?app_assoc.
Qed.

Lemma poly_createNode_miss context nameIn voiceFactory mixerModule voices sp effectFactory
    bufferSize w :
  default false sp = false ->
  nameIn +:+ toString (cfactory voiceFactory) +:+ "_poly" ∉ Poly_gWorkletProcessors w ->
  FaustPolyDspGenerator.createNode context nameIn voiceFactory mixerModule voices sp
    effectFactory bufferSize w
  = let name := nameIn +:+ toString (cfactory voiceFactory) +:+ "_poly" in
    let processorCode :=
      PolyProcessorCode name (json voiceFactory) (json <$> effectFactory) in
    if addModule_resolves (trace w) context processorCode then
      (Some (FaustPolyAudioWorkletNode context name voiceFactory mixerModule voices
               (if matches (compile_options (JSON_parse (json voiceFactory))) "-double"
                then 8%N else 4%N) effectFactory),
       {| Mono_gWorkletProcessors := Mono_gWorkletProcessors w;
          Poly_gWorkletProcessors := {[ name ]} ∪ Poly_gWorkletProcessors w;
          trace := trace w ++ [EvAddModule context processorCode true;
                               EvNewAudioWorkletNode context name] |})
    else
      (None,
       extend w [EvAddModule context processorCode false;
                 EvConsoleError "=> exception raised while running createMonoNode";
                 EvConsoleError "=> check that your page is served using https."]).
Proof.
  intros Hsp Hout.
  unfold FaustPolyDspGenerator.createNode, FaustPolyDspGenerator.has,
    FaustPolyDspGenerator.add, addModule, console_error, extend, bind, ret, emit.
  rewrite Hsp. rewrite bool_decide_eq_false_2 by done. simpl.
  destruct (addModule_resolves _ _ _); simpl; by rewrite <- ?app_assoc.
Qed.

Lemma sp_cases (sp : option bool) : sp = Some true \/ default false sp = false.
Proof. destruct sp as [[]|]; auto. Qed.

End generator_facts.

(** ** The registries account for the trace *)

Lemma accounted_initial : registry_accounted initial_world.
Proof. intros key. done. Qed.

Lemma accounted_extend (w : World) (evs : list Event) :
  forallb (fun e => negb (is_registration e)) evs = true ->
  registry_accounted w -> registry_accounted (extend w evs).
Proof.
  intros Hnone Hacc key. destruct (Hacc key) as [Hm Hp]. simpl.
  rewrite !count_extend_none;
    eauto using mono_registration_is_registration, poly_registration_is_registration.
Qed.

Section accounting.
Context `{Host}.

Lemma accounted_mono_createNode context nameIn factory sp bufferSize w :
  registry_accounted w ->
  registry_accounted
    (FaustMonoDspGenerator.createNode context nameIn factory sp bufferSize w).2.
Proof.
  intros Hacc. destruct (sp_cases sp) as [-> | Hsp].
  { rewrite mono_createNode_script. by apply accounted_extend. }
  destruct (decide (nameIn +:+ toString (cfactory factory) ∈ Mono_gWorkletProcessors w))
    as [Hin | Hout].
  { rewrite mono_createNode_hit by done. by apply accounted_extend. }
  rewrite mono_createNode_miss by done. cbv zeta.
  destruct (addModule_resolves _ _ _); [|by apply accounted_extend].
  intros key. destruct (Hacc key) as [Hm Hp]. simpl. rewrite !count_app, Hm, Hp.
  split; [|unfold count; simpl; lia].
  unfold count. simpl.
  set (name := nameIn +:+ toString (cfactory factory)) in *.
  destruct (decide (name = key)) as [<- | Hne].
  - rewrite (bool_decide_eq_true_2 (name = name)) by done.
    rewrite (bool_decide_eq_false_2 (name ∈ Mono_gWorkletProcessors w)) by done.
    by rewrite bool_decide_eq_true_2 by set_solver.
  - rewrite (bool_decide_eq_false_2 (name = key)) by done. simpl. rewrite Nat.add_0_r.
    apply (f_equal (fun b : bool => if b then 1 else 0)), bool_decide_ext.
    rewrite elem_of_union, elem_of_singleton. intuition congruence.
Qed.

Lemma accounted_poly_createNode context nameIn voiceFactory mixerModule voices sp
    effectFactory bufferSize w :
  registry_accounted w ->
  registry_accounted
    (FaustPolyDspGenerator.createNode context nameIn voiceFactory mixerModule voices sp
       effectFactory bufferSize w).2.
Proof.
  intros Hacc. destruct (sp_cases sp) as [-> | Hsp].
  { rewrite poly_createNode_script. by apply accounted_extend. }
  destruct (decide (nameIn +:+ toString (cfactory voiceFactory) +:+ "_poly"
                      ∈ Poly_gWorkletProcessors w)) as [Hin | Hout].
  { rewrite poly_createNode_hit by done. by apply accounted_extend. }
  rewrite poly_createNode_miss by done. cbv zeta.
  destruct (addModule_resolves _ _ _); [|by apply accounted_extend].
  intros key. destruct (Hacc key) as [Hm Hp]. simpl. rewrite !count_app, Hm, Hp.
  split; [unfold count; simpl; lia|].
  unfold count. simpl.
  set (name := nameIn +:+ toString (cfactory voiceFactory) +:+ "_poly") in *.
  destruct (decide (name = key)) as [<- | Hne].
  - rewrite (bool_decide_eq_true_2 (name = name)) by done.
    rewrite (bool_decide_eq_false_2 (name ∈ Poly_gWorkletProcessors w)) by done.
    by rewrite bool_decide_eq_true_2 by set_solver.
  - rewrite (bool_decide_eq_false_2 (name = key)) by done. simpl. rewrite Nat.add_0_r.
    apply (f_equal (fun b : bool => if b then 1 else 0)), bool_decide_ext.
    rewrite elem_of_union, elem_of_singleton. intuition congruence.
Qed.

(** [compileNode], unfolded once. *)
Lemma mono_compileNode_unfold this context name compiler code args sp bufferSize w :
  FaustMonoDspGenerator.compileNode this context name compiler code args sp bufferSize w
  = let w1 := extend w [EvCreateMonoDSPFactory name code args] in
    match createMonoDSPFactory compiler name code args with
    | Some factory =>
        let (node, w2) :=
          FaustMonoDspGenerator.createNode context name factory sp bufferSize w1 in
        ((node, {| FaustMonoDspGenerator.fFactory := Some factory |}), w2)
    | None => ((None, {| FaustMonoDspGenerator.fFactory := None |}), w1)
    end.
Proof.
  unfold FaustMonoDspGenerator.compileNode, bind, ret. simpl.
  by destruct (createMonoDSPFactory compiler name code args).
Qed.

Lemma poly_compileNode_unfold this context name compiler dspCode effectCode args voices sp
    bufferSize w :
  FaustPolyDspGenerator.compileNode this context name compiler dspCode effectCode args voices
    sp bufferSize w
  = let effect_dsp := if truthy effectCode then default "" effectCode
                      else FaustPolyDspGenerator.integrated_effect dspCode in
    match createPolyDSPFactory compiler name dspCode args with
    | None => ((None, this), extend w [EvCreatePolyDSPFactory name dspCode args])
    | Some voiceFactory =>
        let isDouble :=
          matches (compile_options (JSON_parse (json voiceFactory))) "-double" in
        let w1 := extend w [EvCreatePolyDSPFactory name dspCode args;
                            EvCreatePolyDSPFactory name effect_dsp args;
                            EvGetAsyncInternalMixerModule isDouble] in
        match getAsyncInternalMixerModule compiler isDouble with
        | Some mixerModule =>
            let (node, w2) :=
              FaustPolyDspGenerator.createNode context name voiceFactory mixerModule voices sp
                (createPolyDSPFactory compiler name effect_dsp args) bufferSize w1 in
            ((node, this), w2)
        | None => ((None, this), w1)
        end
    end.
Proof.
  unfold FaustPolyDspGenerator.compileNode, bind, ret, extend, emit. simpl.
  destruct (createPolyDSPFactory compiler name dspCode args) as [voiceFactory|]; [|done].
  simpl. rewrite <- !app_assoc. simpl.
  by destruct (getAsyncInternalMixerModule compiler _).
Qed.

Lemma mono_createOfflineProcessor_unfold factory sampleRate bufferSize w :
  FaustMonoDspGenerator.createOfflineProcessor factory sampleRate bufferSize w
  = (Some {| offline_dsp :=
               {| mono_dsp_instance := {| mono_instance_factory := factory |};
                  mono_dsp_sampleRate := sampleRate;
                  mono_dsp_sampleSize :=
                    if matches (compile_options (JSON_parse (json factory))) "-double"
                    then 8%N else 4%N;
                  mono_dsp_bufferSize := bufferSize |};
             offline_bufferSize := bufferSize |},
     extend w [EvCreateAsyncMonoDSPInstance factory]).
Proof. reflexivity. Qed.

Lemma accounted_step (p : Process) (c : Call) :
  registry_accounted (world p) -> registry_accounted (world (step p c)).
Proof.
  intros Hacc. destruct c; unfold step.
  - pose proof (accounted_mono_createNode context nameIn factory sp bufferSize _ Hacc) as Hn.
    by destruct (FaustMonoDspGenerator.createNode _ _ _ _ _ _).
  - rewrite mono_compileNode_unfold. cbv zeta.
    destruct (createMonoDSPFactory compiler name code0 args) as [factory|].
    + assert (registry_accounted (extend (world p) [EvCreateMonoDSPFactory name code0 args]))
        as Hacc' by by apply accounted_extend.
      pose proof (accounted_mono_createNode context name factory sp bufferSize _ Hacc') as Hn.
      by destruct (FaustMonoDspGenerator.createNode _ _ _ _ _ _).
    + by apply accounted_extend.
  - rewrite mono_createOfflineProcessor_unfold. by apply accounted_extend.
  - pose proof (accounted_poly_createNode context nameIn voiceFactory mixerModule voices sp
                  effectFactory bufferSize _ Hacc) as Hn.
    by destruct (FaustPolyDspGenerator.createNode _ _ _ _ _ _ _ _ _).
  - rewrite poly_compileNode_unfold. cbv zeta.
    destruct (createPolyDSPFactory compiler name dspCode args) as [voiceFactory|];
      [|by apply accounted_extend].
    destruct (getAsyncInternalMixerModule compiler _) as [mixerModule|];
      [|by apply accounted_extend].
    match goal with
    | |- context [FaustPolyDspGenerator.createNode ?c ?n ?v ?m ?k ?s ?e ?b ?w] =>
        assert (registry_accounted w) as Hacc' by (by apply accounted_extend);
        pose proof (accounted_poly_createNode c n v m k s e b w Hacc') as Hn;
        by destruct (FaustPolyDspGenerator.createNode c n v m k s e b w)
    end.
Qed.

Lemma accounted_run (calls : list Call) (p : Process) :
  registry_accounted (world p) -> registry_accounted (world (run p calls)).
Proof.
  revert p. induction calls as [|c calls IH]; intros p Hacc; [done|].
  simpl. apply IH. by apply accounted_step.
Qed.

End accounting.

(** ** The registries only grow *)

Lemma included_refl (w : World) : registries_included w w.
Proof. by split. Qed.

Lemma included_trans (w1 w2 w3 : World) :
  registries_included w1 w2 -> registries_included w2 w3 -> registries_included w1 w3.
Proof. intros [] []. split; by etrans. Qed.

Lemma included_extend (w : World) (evs : list Event) : registries_included w (extend w evs).
Proof. by split. Qed.

Section growth.
Context `{Host}.

Lemma included_mono_createNode context nameIn factory sp bufferSize w :
  registries_included w
    (FaustMonoDspGenerator.createNode context nameIn factory sp bufferSize w).2.
Proof.
  destruct (sp_cases sp) as [-> | Hsp].
  { rewrite mono_createNode_script. apply included_extend. }
  destruct (decide (nameIn +:+ toString (cfactory factory) ∈ Mono_gWorkletProcessors w)).
  { rewrite mono_createNode_hit by done. apply included_extend. }
  rewrite mono_createNode_miss by done. cbv zeta.
  destruct (addModule_resolves _ _ _); [|apply included_extend].
  split; simpl; [apply union_subseteq_r | done].
Qed.

Lemma included_poly_createNode context nameIn voiceFactory mixerModule voices sp
    effectFactory bufferSize w :
  registries_included w
    (FaustPolyDspGenerator.createNode context nameIn voiceFactory mixerModule voices sp
       effectFactory bufferSize w).2.
Proof.
  destruct (sp_cases sp) as [-> | Hsp].
  { rewrite poly_createNode_script. apply included_extend. }
  destruct (decide (nameIn +:+ toString (cfactory voiceFactory) +:+ "_poly"
                      ∈ Poly_gWorkletProcessors w)).
  { rewrite poly_createNode_hit by done. apply included_extend. }
  rewrite poly_createNode_miss by done. cbv zeta.
  destruct (addModule_resolves _ _ _); [|apply included_extend].
  split; simpl; [done | apply union_subseteq_r].
Qed.

Lemma included_step (p : Process) (c : Call) :
  registries_included (world p) (world (step p c)).
Proof.
  destruct c; unfold step.
  - pose proof (included_mono_createNode context nameIn factory sp bufferSize (world p)).
    by destruct (FaustMonoDspGenerator.createNode _ _ _ _ _ _).
  - rewrite mono_compileNode_unfold. cbv zeta.
    destruct (createMonoDSPFactory compiler name code0 args) as [factory|];
      [|apply included_extend].
    match goal with
    | |- context [FaustMonoDspGenerator.createNode ?c ?n ?f ?s ?b ?w] =>
        pose proof (included_mono_createNode c n f s b w) as Hn;
        destruct (FaustMonoDspGenerator.createNode c n f s b w)
    end.
    eapply included_trans; [apply included_extend | exact Hn].
  - rewrite mono_createOfflineProcessor_unfold. apply included_extend.
  - pose proof (included_poly_createNode context nameIn voiceFactory mixerModule voices sp
                  effectFactory bufferSize (world p)).
    by destruct (FaustPolyDspGenerator.createNode _ _ _ _ _ _ _ _ _).
  - rewrite poly_compileNode_unfold. cbv zeta.
    destruct (createPolyDSPFactory compiler name dspCode args) as [voiceFactory|];
      [|apply included_extend].
    destruct (getAsyncInternalMixerModule compiler _) as [mixerModule|];
      [|apply included_extend].
    match goal with
    | |- context [FaustPolyDspGenerator.createNode ?c ?n ?v ?m ?k ?s ?e ?b ?w] =>
        pose proof (included_poly_createNode c n v m k s e b w) as Hn;
        destruct (FaustPolyDspGenerator.createNode c n v m k s e b w)
    end.
    eapply included_trans; [apply included_extend | exact Hn].
Qed.

Lemma included_run (calls : list Call) (p : Process) :
  registries_included (world p) (world (run p calls)).
Proof.
  revert p. induction calls as [|c calls IH]; intros p; [apply included_refl|].
  simpl. eapply included_trans; [apply included_step | apply IH].
Qed.

End growth.

(** * The claims *)

(** ** Registration cache *)

(** C1, as stated, fails when the first registration is refused: the first
    call performs [addModule] but records nothing, and the later call with the
    same key registers again instead of skipping registration. *)
Lemma C1_counterexample :
  let first := @FaustMonoDspGenerator.createNode refusing_once_host ctx0 "osc" osc_single
                 None None initial_world in
  let later := @FaustMonoDspGenerator.createNode refusing_once_host ctx0 "osc" osc_single
                 None None first.2 in
  first.1 = None /\
  trace first.2
    = [EvAddModule ctx0 (MonoProcessorCode "osc5" (json osc_single)) false;
       EvConsoleError "=> exception raised while running createMonoNode";
       EvConsoleError "=> check that your page is served using https."] /\
  Mono_gWorkletProcessors first.2 = ∅ /\
  trace later.2
    = trace first.2
      ++ [EvAddModule ctx0 (MonoProcessorCode "osc5" (json osc_single)) true;
          EvNewAudioWorkletNode ctx0 "osc5"].
Proof. vm_compute. repeat split; reflexivity. Qed.

(** C1 (amended): per generator class and build key, backend code is
    registered successfully at most once.  A worklet-backend [createNode] call
    whose key is not in the class's registry calls [addModule] exactly once and
    records the key if and only if [addModule] succeeds; a call whose key is in
    the registry skips registration and goes straight to constructing the
    AudioWorkletNode, whatever context it is given; keys are never removed; and
    in any series of generator calls from a fresh process the trace holds at
    most one successful registration per key and class (all contexts taken
    together). *)
Theorem C1_registration_at_most_once `{Host} :
  (forall context nameIn factory sp bufferSize w,
     let name := nameIn +:+ toString (cfactory factory) in
     let processorCode := MonoProcessorCode name (json factory) in
     let resolved := addModule_resolves (trace w) context processorCode in
     let r := FaustMonoDspGenerator.createNode context nameIn factory sp bufferSize w in
     default false sp = false ->
     name ∉ Mono_gWorkletProcessors w ->
     (exists rest, trace r.2 = trace w ++ EvAddModule context processorCode resolved :: rest
                   /\ count is_addModule rest = 0) /\
     (name ∈ Mono_gWorkletProcessors r.2 <-> resolved = true)) /\
  (forall context nameIn voiceFactory mixerModule voices sp effectFactory bufferSize w,
     let name := nameIn +:+ toString (cfactory voiceFactory) +:+ "_poly" in
     let processorCode :=
       PolyProcessorCode name (json voiceFactory) (json <$> effectFactory) in
     let resolved := addModule_resolves (trace w) context processorCode in
     let r := FaustPolyDspGenerator.createNode context nameIn voiceFactory mixerModule voices
                sp effectFactory bufferSize w in
     default false sp = false ->
     name ∉ Poly_gWorkletProcessors w ->
     (exists rest, trace r.2 = trace w ++ EvAddModule context processorCode resolved :: rest
                   /\ count is_addModule rest = 0) /\
     (name ∈ Poly_gWorkletProcessors r.2 <-> resolved = true)) /\
  (forall context nameIn factory sp bufferSize w,
     let name := nameIn +:+ toString (cfactory factory) in
     default false sp = false ->
     name ∈ Mono_gWorkletProcessors w ->
     exists sampleSize,
       FaustMonoDspGenerator.createNode context nameIn factory sp bufferSize w
       = (Some (FaustMonoAudioWorkletNode context name factory sampleSize),
          extend w [EvNewAudioWorkletNode context name])) /\
  (forall context nameIn voiceFactory mixerModule voices sp effectFactory bufferSize w,
     let name := nameIn +:+ toString (cfactory voiceFactory) +:+ "_poly" in
     default false sp = false ->
     name ∈ Poly_gWorkletProcessors w ->
     exists sampleSize,
       FaustPolyDspGenerator.createNode context nameIn voiceFactory mixerModule voices sp
         effectFactory bufferSize w
       = (Some (FaustPolyAudioWorkletNode context name voiceFactory mixerModule voices
                  sampleSize effectFactory),
          extend w [EvNewAudioWorkletNode context name])) /\
  (forall p calls, registries_included (world p) (world (run p calls))) /\
  (forall calls key,
     count (mono_registration key) (trace (world (run fresh_process calls))) <= 1 /\
     count (poly_registration key) (trace (world (run fresh_process calls))) <= 1).
Proof.
  repeat apply conj.
  - intros context nameIn factory sp bufferSize w name processorCode resolved r Hsp Hout.
    subst r. rewrite mono_createNode_miss by done. cbv zeta.
    fold name processorCode resolved. destruct resolved; simpl.
    + split; [by eexists | ]. split; [done | intros _; apply elem_of_union_l].
      by apply elem_of_singleton.
    + split; [by eexists | ]. split; [done | discriminate].
  - intros context nameIn voiceFactory mixerModule voices sp effectFactory bufferSize w
      name processorCode resolved r Hsp Hout.
    subst r. rewrite poly_createNode_miss by done. cbv zeta.
    fold name processorCode resolved. destruct resolved; simpl.
    + split; [by eexists | ]. split; [done | intros _; apply elem_of_union_l].
      by apply elem_of_singleton.
    + split; [by eexists | ]. split; [done | discriminate].
  - intros context nameIn factory sp bufferSize w name Hsp Hin.
    eexists. by apply mono_createNode_hit.
  - intros context nameIn voiceFactory mixerModule voices sp effectFactory bufferSize w
      name Hsp Hin.
    eexists. by apply poly_createNode_hit.
  - intros p calls. apply included_run.
  - intros calls key.
    destruct (accounted_run calls fresh_process accounted_initial key) as [-> ->].
    split; destruct (bool_decide _); lia.
Qed.

Lemma C1_registration_at_most_once_witness :
  default false (None : option bool) = false /\
  ("osc5" ∉ Mono_gWorkletProcessors initial_world) /\
  "osc5" ∈ Mono_gWorkletProcessors
             (@FaustMonoDspGenerator.createNode accepting_host ctx0 "osc" osc_single
                None None initial_world).2.
Proof.
  assert ("osc5" ∉ Mono_gWorkletProcessors initial_world) as Hfresh
    by apply not_elem_of_empty.
  split; [reflexivity | split; [exact Hfresh |]].
  destruct (@C1_registration_at_most_once accepting_host) as [Hmiss _].
  apply (Hmiss ctx0 "osc" osc_single None None initial_world eq_refl Hfresh).
  reflexivity.
Defined.

(** C2, as stated, fails: two factories with the same binary and the same
    metadata document, obtained under different compiler handles, are built
    under one name and the backend code is registered twice. *)
Lemma C2_counterexample :
  let first := @FaustMonoDspGenerator.createNode accepting_host ctx0 "osc" osc_single
                 None None initial_world in
  let second := @FaustMonoDspGenerator.createNode accepting_host ctx0 "osc"
                  osc_single_again None None first.2 in
  code osc_single = code osc_single_again /\
  module osc_single = module osc_single_again /\
  json osc_single = json osc_single_again /\
  trace second.2
    = [EvAddModule ctx0 (MonoProcessorCode "osc5" (json osc_single)) true;
       EvNewAudioWorkletNode ctx0 "osc5";
       EvAddModule ctx0 (MonoProcessorCode "osc6" (json osc_single)) true;
       EvNewAudioWorkletNode ctx0 "osc6"] /\
  count is_registration (trace second.2) = 2.
Proof. vm_compute. repeat split; reflexivity. Qed.

(** The cache does not look at content in the other direction either: a
    different program under the same handle and name is a cache hit. *)
Example same_handle_other_content_is_a_hit :
  let other := {| cfactory := cfactory osc_single; code := code osc_double;
                  module := module osc_double; json := json osc_double; poly := false |} in
  let first := @FaustMonoDspGenerator.createNode accepting_host ctx0 "osc" osc_single
                 None None initial_world in
  let second := @FaustMonoDspGenerator.createNode accepting_host ctx0 "osc" other
                  None None first.2 in
  second.1 = Some (FaustMonoAudioWorkletNode ctx0 "osc5" other 8) /\
  count is_addModule (trace second.2) = 1.
Proof. vm_compute. split; reflexivity. Qed.

(** C2 (amended): the cache key is the name followed by the factory handle
    (and "_poly" for the poly generator), not a fingerprint of the content.
    For every pair of factories with the same handle, whatever their binary
    and metadata, building a worklet-backend node from each under the same
    name, the key being unregistered before the first build and [addModule]
    succeeding there, registers backend code exactly once in total: the second
    build is a cache hit and performs no registration. *)
Theorem C2_same_handle_registers_once `{Host} :
  (forall context1 context2 name factory1 factory2 sp1 sp2 bufferSize1 bufferSize2 w,
     let key := name +:+ toString (cfactory factory1) in
     let first := FaustMonoDspGenerator.createNode context1 name factory1 sp1 bufferSize1 w in
     let second :=
       FaustMonoDspGenerator.createNode context2 name factory2 sp2 bufferSize2 first.2 in
     cfactory factory1 = cfactory factory2 ->
     default false sp1 = false -> default false sp2 = false ->
     key ∉ Mono_gWorkletProcessors w ->
     addModule_resolves (trace w) context1 (MonoProcessorCode key (json factory1)) = true ->
     count is_addModule (trace second.2) = S (count is_addModule (trace w)) /\
     trace second.2 = trace first.2 ++ [EvNewAudioWorkletNode context2 key] /\
     is_Some second.1) /\
  (forall context1 context2 name voiceFactory1 voiceFactory2 mixerModule1 mixerModule2
          voices1 voices2 sp1 sp2 effectFactory1 effectFactory2 bufferSize1 bufferSize2 w,
     let key := name +:+ toString (cfactory voiceFactory1) +:+ "_poly" in
     let first := FaustPolyDspGenerator.createNode context1 name voiceFactory1 mixerModule1
                    voices1 sp1 effectFactory1 bufferSize1 w in
     let second := FaustPolyDspGenerator.createNode context2 name voiceFactory2 mixerModule2
                     voices2 sp2 effectFactory2 bufferSize2 first.2 in
     cfactory voiceFactory1 = cfactory voiceFactory2 ->
     default false sp1 = false -> default false sp2 = false ->
     key ∉ Poly_gWorkletProcessors w ->
     addModule_resolves (trace w) context1
       (PolyProcessorCode key (json voiceFactory1) (json <$> effectFactory1)) = true ->
     count is_addModule (trace second.2) = S (count is_addModule (trace w)) /\
     trace second.2 = trace first.2 ++ [EvNewAudioWorkletNode context2 key] /\
     is_Some second.1).
Proof.
  split.
  - intros context1 context2 name factory1 factory2 sp1 sp2 bufferSize1 bufferSize2 w
      key first second Hhandle Hsp1 Hsp2 Hfresh Hok.
    subst second first. rewrite (mono_createNode_miss context1) by done. cbv zeta.
    fold key. rewrite Hok. simpl.
    rewrite mono_createNode_hit; [|done|].
    + rewrite <- Hhandle. fold key. simpl. rewrite <- app_assoc, count_app. simpl.
      split; [unfold count; simpl; lia | done].
    + rewrite <- Hhandle. fold key. simpl. apply elem_of_union_l. by apply elem_of_singleton.
  - intros context1 context2 name voiceFactory1 voiceFactory2 mixerModule1 mixerModule2
      voices1 voices2 sp1 sp2 effectFactory1 effectFactory2 bufferSize1 bufferSize2 w
      key first second Hhandle Hsp1 Hsp2 Hfresh Hok.
    subst second first. rewrite (poly_createNode_miss context1) by done. cbv zeta.
    fold key. rewrite Hok. simpl.
    rewrite poly_createNode_hit; [|done|].
    + rewrite <- Hhandle. fold key. simpl. rewrite <- app_assoc, count_app. simpl.
      split; [unfold count; simpl; lia | done].
    + rewrite <- Hhandle. fold key. simpl. apply elem_of_union_l. by apply elem_of_singleton.
Qed.

Lemma C2_same_handle_registers_once_witness :
  let other := {| cfactory := cfactory osc_single; code := code osc_double;
                  module := module osc_double; json := json osc_double; poly := false |} in
  let first := @FaustMonoDspGenerator.createNode accepting_host ctx0 "osc" osc_single
                 None None initial_world in
  let second := @FaustMonoDspGenerator.createNode accepting_host ctx1 "osc" other
                  (Some false) None first.2 in
  cfactory osc_single = cfactory other /\
  ("osc5" ∉ Mono_gWorkletProcessors initial_world) /\
  count is_addModule (trace second.2) = 1.
Proof.
  intros other first second.
  assert ("osc5" ∉ Mono_gWorkletProcessors initial_world) as Hfresh
    by apply not_elem_of_empty.
  split; [reflexivity | split; [exact Hfresh |]].
  destruct (@C2_same_handle_registers_once accepting_host) as [Hmono _].
  apply (Hmono ctx0 ctx1 "osc" osc_single other None (Some false) None None initial_world
           eq_refl eq_refl eq_refl Hfresh eq_refl).
Defined.

(** ** Registration failure *)

(** C3: when a worklet-backend [createNode] call has to register the backend
    code and [addModule] rejects, the call returns [null]; the only external
    calls it made are that one [addModule] and the two error messages, so the
    registration is not attempted a second time. *)
Theorem C3_registration_failure_returns_null `{Host} :
  (forall context nameIn factory sp bufferSize w,
     let name := nameIn +:+ toString (cfactory factory) in
     let processorCode := MonoProcessorCode name (json factory) in
     let r := FaustMonoDspGenerator.createNode context nameIn factory sp bufferSize w in
     default false sp = false ->
     name ∉ Mono_gWorkletProcessors w ->
     addModule_resolves (trace w) context processorCode = false ->
     r = (None,
          extend w [EvAddModule context processorCode false;
                    EvConsoleError "=> exception raised while running createMonoNode";
                    EvConsoleError "=> check that your page is served using https."]) /\
     count is_addModule (trace r.2) = S (count is_addModule (trace w))) /\
  (forall context nameIn voiceFactory mixerModule voices sp effectFactory bufferSize w,
     let name := nameIn +:+ toString (cfactory voiceFactory) +:+ "_poly" in
     let processorCode :=
       PolyProcessorCode name (json voiceFactory) (json <$> effectFactory) in
     let r := FaustPolyDspGenerator.createNode context nameIn voiceFactory mixerModule voices
                sp effectFactory bufferSize w in
     default false sp = false ->
     name ∉ Poly_gWorkletProcessors w ->
     addModule_resolves (trace w) context processorCode = false ->
     r = (None,
          extend w [EvAddModule context processorCode false;
                    EvConsoleError "=> exception raised while running createMonoNode";
                    EvConsoleError "=> check that your page is served using https."]) /\
     count is_addModule (trace r.2) = S (count is_addModule (trace w))).
Proof.
  split.
  - intros context nameIn factory sp bufferSize w name processorCode r Hsp Hfresh Hfail.
    subst r. rewrite mono_createNode_miss by done. cbv zeta. fold name processorCode.
    rewrite Hfail. split; [done|]. simpl. rewrite count_app. unfold count. simpl. lia.
  - intros context nameIn voiceFactory mixerModule voices sp effectFactory bufferSize w
      name processorCode r Hsp Hfresh Hfail.
    subst r. rewrite poly_createNode_miss by done. cbv zeta. fold name processorCode.
    rewrite Hfail. split; [done|]. simpl. rewrite count_app. unfold count. simpl. lia.
Qed.

Lemma C3_registration_failure_returns_null_witness :
  ("osc5_poly" ∉ Poly_gWorkletProcessors initial_world) /\
  (@FaustPolyDspGenerator.createNode refusing_host ctx0 "osc" osc_single mixer32 4 None None
     None initial_world).1 = None.
Proof.
  assert ("osc5_poly" ∉ Poly_gWorkletProcessors initial_world) as Hfresh
    by apply not_elem_of_empty.
  split; [exact Hfresh |].
  destruct (@C3_registration_failure_returns_null refusing_host) as [_ Hpoly].
  destruct (Hpoly ctx0 "osc" osc_single mixer32 4%N None None None initial_world
              eq_refl Hfresh eq_refl) as [Hr _].
  exact (f_equal fst Hr).
Defined.

(** C4: a failed registration leaves both registries as they were, so the next
    build of the same module under the same name (in any context) calls
    [addModule] again; and whenever a call does add a key, it is the key of
    that call and its [addModule] has succeeded. *)
Theorem C4_failure_leaves_cache_unchanged `{Host} :
  (forall context nameIn factory sp bufferSize w,
     let name := nameIn +:+ toString (cfactory factory) in
     let processorCode := MonoProcessorCode name (json factory) in
     let r := FaustMonoDspGenerator.createNode context nameIn factory sp bufferSize w in
     default false sp = false ->
     name ∉ Mono_gWorkletProcessors w ->
     addModule_resolves (trace w) context processorCode = false ->
     Mono_gWorkletProcessors r.2 = Mono_gWorkletProcessors w /\
     Poly_gWorkletProcessors r.2 = Poly_gWorkletProcessors w /\
     forall context' sp' bufferSize',
       default false sp' = false ->
       exists resolved rest,
         trace (FaustMonoDspGenerator.createNode context' nameIn factory sp' bufferSize'
                  r.2).2
         = trace r.2 ++ EvAddModule context' processorCode resolved :: rest) /\
  (forall context nameIn voiceFactory mixerModule voices sp effectFactory bufferSize w,
     let name := nameIn +:+ toString (cfactory voiceFactory) +:+ "_poly" in
     let processorCode :=
       PolyProcessorCode name (json voiceFactory) (json <$> effectFactory) in
     let r := FaustPolyDspGenerator.createNode context nameIn voiceFactory mixerModule voices
                sp effectFactory bufferSize w in
     default false sp = false ->
     name ∉ Poly_gWorkletProcessors w ->
     addModule_resolves (trace w) context processorCode = false ->
     Mono_gWorkletProcessors r.2 = Mono_gWorkletProcessors w /\
     Poly_gWorkletProcessors r.2 = Poly_gWorkletProcessors w /\
     forall context' sp' bufferSize',
       default false sp' = false ->
       exists resolved rest,
         trace (FaustPolyDspGenerator.createNode context' nameIn voiceFactory mixerModule
                  voices sp' effectFactory bufferSize' r.2).2
         = trace r.2 ++ EvAddModule context' processorCode resolved :: rest) /\
  (forall context nameIn factory sp bufferSize w key,
     let name := nameIn +:+ toString (cfactory factory) in
     let r := FaustMonoDspGenerator.createNode context nameIn factory sp bufferSize w in
     key ∈ Mono_gWorkletProcessors r.2 ->
     key ∉ Mono_gWorkletProcessors w ->
     key = name /\
     addModule_resolves (trace w) context (MonoProcessorCode name (json factory)) = true /\
     EvAddModule context (MonoProcessorCode name (json factory)) true ∈ trace r.2) /\
  (forall context nameIn voiceFactory mixerModule voices sp effectFactory bufferSize w key,
     let name := nameIn +:+ toString (cfactory voiceFactory) +:+ "_poly" in
     let processorCode :=
       PolyProcessorCode name (json voiceFactory) (json <$> effectFactory) in
     let r := FaustPolyDspGenerator.createNode context nameIn voiceFactory mixerModule voices
                sp effectFactory bufferSize w in
     key ∈ Poly_gWorkletProcessors r.2 ->
     key ∉ Poly_gWorkletProcessors w ->
     key = name /\
     addModule_resolves (trace w) context processorCode = true /\
     EvAddModule context processorCode true ∈ trace r.2).
Proof.
  repeat apply conj.
  - intros context nameIn factory sp bufferSize w name processorCode r Hsp Hfresh Hfail.
    subst r. rewrite mono_createNode_miss by done. cbv zeta. fold name processorCode.
    rewrite Hfail. split; [done|]. split; [done|].
    intros context' sp' bufferSize' Hsp'.
    rewrite mono_createNode_miss by done. cbv zeta. fold name processorCode.
    destruct (addModule_resolves _ context' _); by do 2 eexists.
  - intros context nameIn voiceFactory mixerModule voices sp effectFactory bufferSize w
      name processorCode r Hsp Hfresh Hfail.
    subst r. rewrite poly_createNode_miss by done. cbv zeta. fold name processorCode.
    rewrite Hfail. split; [done|]. split; [done|].
    intros context' sp' bufferSize' Hsp'.
    rewrite poly_createNode_miss by done. cbv zeta. fold name processorCode.
    destruct (addModule_resolves _ context' _); by do 2 eexists.
  - intros context nameIn factory sp bufferSize w key name r. subst r.
    destruct (sp_cases sp) as [-> | Hsp].
    { rewrite mono_createNode_script. simpl. done. }
    destruct (decide (name ∈ Mono_gWorkletProcessors w)) as [Hin | Hout].
    { rewrite mono_createNode_hit by done. simpl. done. }
    rewrite mono_createNode_miss by done. cbv zeta. fold name.
    destruct (addModule_resolves _ _ _); simpl; [|done].
    intros [->%elem_of_singleton | Hold]%elem_of_union Hnew; [|done].
    split; [done|]. split; [done|].
    apply elem_of_app. right. apply list_elem_of_here.
  - intros context nameIn voiceFactory mixerModule voices sp effectFactory bufferSize w key
      name processorCode r. subst r.
    destruct (sp_cases sp) as [-> | Hsp].
    { rewrite poly_createNode_script. simpl. done. }
    destruct (decide (name ∈ Poly_gWorkletProcessors w)) as [Hin | Hout].
    { rewrite poly_createNode_hit by done. simpl. done. }
    rewrite poly_createNode_miss by done. cbv zeta. fold name processorCode.
    destruct (addModule_resolves _ _ _); simpl; [|done].
    intros [->%elem_of_singleton | Hold]%elem_of_union Hnew; [|done].
    split; [done|]. split; [done|].
    apply elem_of_app. right. apply list_elem_of_here.
Qed.

Lemma C4_failure_leaves_cache_unchanged_witness :
  ("osc5" ∉ Mono_gWorkletProcessors initial_world) /\
  Mono_gWorkletProcessors
    (@FaustMonoDspGenerator.createNode refusing_host ctx0 "osc" osc_single None None
       initial_world).2
  = Mono_gWorkletProcessors initial_world.
Proof.
  assert ("osc5" ∉ Mono_gWorkletProcessors initial_world) as Hfresh
    by apply not_elem_of_empty.
  split; [exact Hfresh |].
  destruct (@C4_failure_leaves_cache_unchanged refusing_host) as [Hmono _].
  apply (Hmono ctx0 "osc" osc_single None None initial_world eq_refl Hfresh eq_refl).
Defined.

(** ** Sample size *)

Section sample_size.
Context `{Host}.



Lemma poly_createNode_sampleSize context nameIn voiceFactory mixerModule voices sp
    effectFactory bufferSize w node :
  (FaustPolyDspGenerator.createNode context nameIn voiceFactory mixerModule voices sp
     effectFactory bufferSize w).1 = Some node ->
  poly_node_sampleSize node
  = if matches (compile_options (JSON_parse (json voiceFactory))) "-double"
    then 8%N else 4%N.
Proof.
  destruct (sp_cases sp) as [-> | Hsp].
  { rewrite poly_createNode_script. simpl. by intros [= <-]. }
  destruct (decide (nameIn +:+ toString (cfactory voiceFactory) +:+ "_poly"
                      ∈ Poly_gWorkletProcessors w)).
  { rewrite poly_createNode_hit by done. simpl. by intros [= <-]. }
  rewrite poly_createNode_miss by done. cbv zeta.
  destruct (addModule_resolves _ _ _); simpl; [by intros [= <-] | done].
Qed.

End sample_size.



(** ** Compilation *)

(** [createNode] only appends to the trace. *)
Lemma mono_createNode_trace_grows `{Host} context nameIn factory sp bufferSize w :
  exists rest,
    trace (FaustMonoDspGenerator.createNode context nameIn factory sp bufferSize w).2
    = trace w ++ rest.
Proof.
  destruct (sp_cases sp) as [-> | Hsp].
  { rewrite mono_createNode_script. by eexists. }
  destruct (decide (nameIn +:+ toString (cfactory factory) ∈ Mono_gWorkletProcessors w)).
  { rewrite mono_createNode_hit by done. by eexists. }
  rewrite mono_createNode_miss by done. cbv zeta.
  destruct (addModule_resolves _ _ _); by eexists.
Qed.

Lemma poly_createNode_trace_grows `{Host} context nameIn voiceFactory mixerModule voices sp
    effectFactory bufferSize w :
  exists rest,
    trace (FaustPolyDspGenerator.createNode context nameIn voiceFactory mixerModule voices sp
             effectFactory bufferSize w).2
    = trace w ++ rest.
Proof.
  destruct (sp_cases sp) as [-> | Hsp].
  { rewrite poly_createNode_script. by eexists. }
  destruct (decide (nameIn +:+ toString (cfactory voiceFactory) +:+ "_poly"
                      ∈ Poly_gWorkletProcessors w)).
  { rewrite poly_createNode_hit by done. by eexists. }
  rewrite poly_createNode_miss by done. cbv zeta.
  destruct (addModule_resolves _ _ _); by eexists.
Qed.

(** C6: [compileNode] hands name, code and arguments to the compiler as they
    are and works with what the compiler returns (mono: the result becomes
    [fFactory] and, when present, is the factory [createNode] is called with).
    When the compiler has no factory for the mono program, or for the voice
    program of the poly generator, [compileNode] returns [null] and the
    compiler call is the only external call made: nothing is instantiated,
    registered or constructed. *)
Theorem C6_compile_failure_returns_null `{Host} :
  (forall this context name compiler code args sp bufferSize w,
     let r := FaustMonoDspGenerator.compileNode this context name compiler code args sp
                bufferSize w in
     (exists rest, trace r.2 = trace w ++ EvCreateMonoDSPFactory name code args :: rest) /\
     FaustMonoDspGenerator.getFactory r.1.2 = createMonoDSPFactory compiler name code args /\
     (forall factory,
        createMonoDSPFactory compiler name code args = Some factory ->
        (r.1.1, r.2)
        = FaustMonoDspGenerator.createNode context name factory sp bufferSize
            (extend w [EvCreateMonoDSPFactory name code args])) /\
     (createMonoDSPFactory compiler name code args = None ->
        r.1.1 = None /\ r.2 = extend w [EvCreateMonoDSPFactory name code args])) /\
  (forall this context name compiler dspCode effectCode args voices sp bufferSize w,
     let r := FaustPolyDspGenerator.compileNode this context name compiler dspCode effectCode
                args voices sp bufferSize w in
     (exists rest, trace r.2 = trace w ++ EvCreatePolyDSPFactory name dspCode args :: rest) /\
     (createPolyDSPFactory compiler name dspCode args = None ->
        r.1.1 = None /\ r.2 = extend w [EvCreatePolyDSPFactory name dspCode args])).
Proof.
  split.
  - intros this context name compiler code0 args sp bufferSize w r. subst r.
    rewrite mono_compileNode_unfold. cbv zeta.
    destruct (createMonoDSPFactory compiler name code0 args) as [factory|].
    + match goal with
      | |- context [FaustMonoDspGenerator.createNode ?c ?n ?f ?s ?b ?w] =>
          pose proof (mono_createNode_trace_grows c n f s b w) as [rest Hrest];
          destruct (FaustMonoDspGenerator.createNode c n f s b w) as [node w2] eqn:Hnode
      end.
      simpl in *. split; [rewrite Hrest; simpl; rewrite <- app_assoc; by eexists |].
      split; [done|]. split; [|done]. intros ? [= <-]. by rewrite Hnode.
    + split; [by eexists | done].
  - intros this context name compiler dspCode effectCode args voices sp bufferSize w r.
    subst r. rewrite poly_compileNode_unfold. cbv zeta.
    destruct (createPolyDSPFactory compiler name dspCode args) as [voiceFactory|].
    + split; [|done].
      destruct (getAsyncInternalMixerModule compiler _) as [mixerModule|];
        [|by eexists].
      match goal with
      | |- context [FaustPolyDspGenerator.createNode ?c ?n ?v ?m ?k ?s ?e ?b ?w] =>
          pose proof (poly_createNode_trace_grows c n v m k s e b w) as [rest Hrest];
          destruct (FaustPolyDspGenerator.createNode c n v m k s e b w)
      end.
      simpl in *. rewrite Hrest. simpl. rewrite <- app_assoc. by eexists.
    + split; [by eexists | done].
Qed.

Lemma C6_compile_failure_returns_null_witness :
  createMonoDSPFactory rejecting_compiler "osc" "process = +;" "-ftz 2" = None /\
  (@FaustMonoDspGenerator.compileNode accepting_host FaustMonoDspGenerator.new ctx0 "osc"
     rejecting_compiler "process = +;" "-ftz 2" None None initial_world).1.1 = None.
Proof.
  split; [reflexivity |].
  destruct (@C6_compile_failure_returns_null accepting_host) as [Hmono _].
  destruct (Hmono FaustMonoDspGenerator.new ctx0 "osc" rejecting_compiler "process = +;"
              "-ftz 2" None None initial_world) as (_ & _ & _ & Hnone).
  apply Hnone. reflexivity.
Defined.

(** ** Block-synchronous backend *)

(** C7: with [sp = true] the instance is created from the factory in the
    caller's context, wrapped in a DSP object and attached to a script
    processor node of that context; the two external calls made are the
    instantiation and [createScriptProcessor], so [addModule] is not invoked
    and both registries stay as they were. *)
Theorem C7_script_processor_leaves_cache_unchanged `{Host} :
  (forall context nameIn factory bufferSize w,
     let r := FaustMonoDspGenerator.createNode context nameIn factory (Some true) bufferSize
                w in
     (exists sp dsp,
        r.1 = Some (FaustMonoScriptProcessorNode sp dsp) /\
        sp_context sp = context /\
        mono_dsp_instance dsp = {| mono_instance_factory := factory |}) /\
     Mono_gWorkletProcessors r.2 = Mono_gWorkletProcessors w /\
     Poly_gWorkletProcessors r.2 = Poly_gWorkletProcessors w /\
     trace r.2
       = trace w ++ [EvCreateAsyncMonoDSPInstance factory;
                     EvCreateScriptProcessor context (default 1024%N bufferSize)
                       (inputs (JSON_parse (json factory)))
                       (outputs (JSON_parse (json factory)))] /\
     count is_addModule (trace r.2) = count is_addModule (trace w)) /\
  (forall context nameIn voiceFactory mixerModule voices effectFactory bufferSize w,
     let r := FaustPolyDspGenerator.createNode context nameIn voiceFactory mixerModule voices
                (Some true) effectFactory bufferSize w in
     (exists sp dsp,
        r.1 = Some (FaustPolyScriptProcessorNode sp dsp) /\
        sp_context sp = context /\
        poly_dsp_instance dsp
          = {| poly_instance_voiceFactory := voiceFactory;
               poly_instance_mixerModule := mixerModule;
               poly_instance_voices := voices;
               poly_instance_effectFactory := effectFactory |}) /\
     Mono_gWorkletProcessors r.2 = Mono_gWorkletProcessors w /\
     Poly_gWorkletProcessors r.2 = Poly_gWorkletProcessors w /\
     trace r.2
       = trace w ++ [EvCreateAsyncPolyDSPInstance voiceFactory mixerModule voices
                       effectFactory;
                     EvCreateScriptProcessor context (default 1024%N bufferSize)
                       (inputs (JSON_parse (json voiceFactory)))
                       (outputs (JSON_parse (json voiceFactory)))] /\
     count is_addModule (trace r.2) = count is_addModule (trace w)).
Proof.
  split.
  - intros context nameIn factory bufferSize w r. subst r.
    rewrite mono_createNode_script. cbv zeta. simpl.
    split; [by do 2 eexists |]. do 3 (split; [done|]).
    rewrite count_app. unfold count. simpl. lia.
  - intros context nameIn voiceFactory mixerModule voices effectFactory bufferSize w r.
    subst r. rewrite poly_createNode_script. cbv zeta. simpl.
    split; [by do 2 eexists |]. do 3 (split; [done|]).
    rewrite count_app. unfold count. simpl. lia.
Qed.

(** ** The poly generator's factory fields *)

Lemma poly_generator_step `{Host} (p : Process) (c : Call) :
  poly_generator (step p c) = poly_generator p.
Proof.
  destruct c; unfold step.
  - by destruct (FaustMonoDspGenerator.createNode _ _ _ _ _ _).
  - by destruct (FaustMonoDspGenerator.compileNode _ _ _ _ _ _ _ _ _) as [[] ].
  - by destruct (FaustMonoDspGenerator.createOfflineProcessor _ _ _ _).
  - by destruct (FaustPolyDspGenerator.createNode _ _ _ _ _ _ _ _ _).
  - rewrite poly_compileNode_unfold. cbv zeta.
    destruct (createPolyDSPFactory compiler name dspCode args); [|done].
    destruct (getAsyncInternalMixerModule compiler _); [|done].
    by destruct (FaustPolyDspGenerator.createNode _ _ _ _ _ _ _ _ _).
Qed.

(** With a compiler that produces a voice and an effect factory, a node is
    built and the generator still reports no factory. *)
Example poly_compileNode_keeps_no_factory :
  let r := @FaustPolyDspGenerator.compileNode accepting_host FaustPolyDspGenerator.new ctx0
             "osc" generous_compiler "process = _;" (Some "process = _,_;") "" 4 None None
             initial_world in
  r.1.1 = Some (FaustPolyAudioWorkletNode ctx0 "osc5_poly" osc_single mixer32 4 4
                  (Some osc_double)) /\
  FaustPolyDspGenerator.getVoiceFactory r.1.2 = None /\
  FaustPolyDspGenerator.getEffectFactory r.1.2 = None.
Proof. vm_compute. repeat split; reflexivity. Qed.

(** C9: [compileNode] returns the poly generator object as it received it, so
    after any series of calls on a newly constructed generator
    [getVoiceFactory] and [getEffectFactory] return [null]. *)
Theorem C9_poly_factories_stay_null `{Host} :
  (forall this context name compiler dspCode effectCode args voices sp bufferSize w,
     (FaustPolyDspGenerator.compileNode this context name compiler dspCode effectCode args
        voices sp bufferSize w).1.2 = this) /\
  (forall calls,
     FaustPolyDspGenerator.getVoiceFactory (poly_generator (run fresh_process calls)) = None /\
     FaustPolyDspGenerator.getEffectFactory (poly_generator (run fresh_process calls))
       = None).
Proof.
  split.
  - intros. rewrite poly_compileNode_unfold. cbv zeta.
    destruct (createPolyDSPFactory compiler name dspCode args); [|done].
    destruct (getAsyncInternalMixerModule compiler _); [|done].
    by destruct (FaustPolyDspGenerator.createNode _ _ _ _ _ _ _ _ _).
  - intros calls.
    assert (forall p, poly_generator (run p calls) = poly_generator p) as Hsame.
    { induction calls as [|c calls IH]; intros p; [done|].
      simpl. by rewrite IH, poly_generator_step. }
    by rewrite Hsame.
Qed.

(** ** Effect compilation in the poly generator *)

(** C10, as stated, fails: the voice program compiles and the mixer module
    loads, yet [compileNode] returns [null], because the hosting context
    refuses the worklet module. *)
Lemma C10_counterexample :
  createPolyDSPFactory voice_only_compiler "osc" "process = _;" "" = Some osc_single /\
  getAsyncInternalMixerModule voice_only_compiler false = Some mixer32 /\
  (@FaustPolyDspGenerator.compileNode refusing_host FaustPolyDspGenerator.new ctx0 "osc"
     voice_only_compiler "process = _;" None "" 4 None None initial_world).1.1 = None.
Proof. vm_compute. repeat split; reflexivity. Qed.

(** C10 (amended): a failed effect compilation is tolerated.  When the voice
    program compiles and the mixer module loads, and the worklet registration
    (if one is needed) does not fail, a node is produced and the effect factory
    it is given is whatever the compiler returned for the effect program:
    absent when that compilation failed.  [compileNode] returns [null] only
    when the voice compilation fails, the mixer module does not load, or the
    registration with the hosting context fails. *)
Theorem C10_effect_failure_tolerated `{Host} :
  forall this context name compiler dspCode effectCode args voices sp bufferSize w,
    let r := FaustPolyDspGenerator.compileNode this context name compiler dspCode effectCode
               args voices sp bufferSize w in
    let effect_dsp := if truthy effectCode then default "" effectCode
                      else FaustPolyDspGenerator.integrated_effect dspCode in
    let effectFactory := createPolyDSPFactory compiler name effect_dsp args in
    let registration_fails voiceFactory :=
      let isDouble := matches (compile_options (JSON_parse (json voiceFactory))) "-double" in
      let key := name +:+ toString (cfactory voiceFactory) +:+ "_poly" in
      default false sp = false /\
      (key ∉ Poly_gWorkletProcessors w) /\
      addModule_resolves
        (trace w ++ [EvCreatePolyDSPFactory name dspCode args;
                     EvCreatePolyDSPFactory name effect_dsp args;
                     EvGetAsyncInternalMixerModule isDouble])
        context (PolyProcessorCode key (json voiceFactory) (json <$> effectFactory))
      = false in
    (forall voiceFactory mixerModule,
       createPolyDSPFactory compiler name dspCode args = Some voiceFactory ->
       getAsyncInternalMixerModule compiler
         (matches (compile_options (JSON_parse (json voiceFactory))) "-double")
         = Some mixerModule ->
       ~ registration_fails voiceFactory ->
       exists node, r.1.1 = Some node /\ poly_node_effectFactory node = effectFactory) /\
    (r.1.1 = None ->
       createPolyDSPFactory compiler name dspCode args = None \/
       exists voiceFactory,
         createPolyDSPFactory compiler name dspCode args = Some voiceFactory /\
         (getAsyncInternalMixerModule compiler
            (matches (compile_options (JSON_parse (json voiceFactory))) "-double") = None \/
          registration_fails voiceFactory)).
Proof.
  intros this context name compiler dspCode effectCode args voices sp bufferSize w
    r effect_dsp effectFactory registration_fails.
  assert (forall voiceFactory mixerModule,
            createPolyDSPFactory compiler name dspCode args = Some voiceFactory ->
            getAsyncInternalMixerModule compiler
              (matches (compile_options (JSON_parse (json voiceFactory))) "-double")
              = Some mixerModule ->
            (exists node, r.1.1 = Some node /\ poly_node_effectFactory node = effectFactory)
            \/ (r.1.1 = None /\ registration_fails voiceFactory)) as Hcases.
  { intros voiceFactory mixerModule Hvoice Hmixer. subst r.
    rewrite poly_compileNode_unfold. cbv zeta. rewrite Hvoice, Hmixer.
    fold effect_dsp effectFactory.
    destruct (sp_cases sp) as [-> | Hsp].
    { rewrite poly_createNode_script. left. by eexists. }
    match goal with
    | |- context [FaustPolyDspGenerator.createNode _ _ _ _ _ _ _ _ ?w1] => set (w1' := w1)
    end.
    destruct (decide (name +:+ toString (cfactory voiceFactory) +:+ "_poly"
                        ∈ Poly_gWorkletProcessors w1')) as [Hin | Hout].
    { rewrite poly_createNode_hit by done. left. by eexists. }
    rewrite poly_createNode_miss by done. cbv zeta.
    destruct (addModule_resolves _ _ _) eqn:Hresolved.
    - left. by eexists.
    - right. split; [done|]. subst registration_fails. cbv beta zeta. done. }
  split.
  - intros voiceFactory mixerModule Hvoice Hmixer Hok.
    destruct (Hcases voiceFactory mixerModule Hvoice Hmixer) as [Hnode | [_ Hfail]]; done.
  - intros Hnull.
    destruct (createPolyDSPFactory compiler name dspCode args) as [voiceFactory|] eqn:Hvoice;
      [|by left].
    right. exists voiceFactory. split; [done|].
    destruct (getAsyncInternalMixerModule compiler _) as [mixerModule|] eqn:Hmixer;
      [|by left].
    right. destruct (Hcases voiceFactory mixerModule eq_refl Hmixer)
      as [(node & Hnode & _) | [_ Hfail]]; [congruence | done].
Qed.

Lemma C10_effect_failure_tolerated_witness :
  createPolyDSPFactory voice_only_compiler "osc" "process = _;" "" = Some osc_single /\
  getAsyncInternalMixerModule voice_only_compiler false = Some mixer32 /\
  createPolyDSPFactory voice_only_compiler "osc"
    (FaustPolyDspGenerator.integrated_effect "process = _;") "" = None /\
  exists node,
    (@FaustPolyDspGenerator.compileNode accepting_host FaustPolyDspGenerator.new ctx0 "osc"
       voice_only_compiler "process = _;" None "" 4 None None initial_world).1.1 = Some node /\
    poly_node_effectFactory node = None.
Proof.
  split; [reflexivity | split; [reflexivity | split; [reflexivity |]]].
  destruct (@C10_effect_failure_tolerated accepting_host FaustPolyDspGenerator.new ctx0 "osc"
              voice_only_compiler "process = _;" None "" 4%N None None initial_world)
    as [Hnode _].
  apply (Hnode osc_single mixer32 eq_refl eq_refl).
  intros (_ & _ & Hrefused). discriminate Hrefused.
Defined.

(** ** Channel counts *)

Lemma built_apply_all {Node} (ops : list FaustNode.Op) (l : FaustNode.Live Node) :
  FaustNode.built (FaustNode.apply_all l ops) = FaustNode.built l.
Proof.
  revert l. induction ops as [|op ops IH]; intros l; [done|].
  simpl. rewrite IH. by destruct op.
Qed.

Section channel_counts.
Context `{Host}.

Lemma mono_createNode_built_from context nameIn factory sp bufferSize w node :
  (FaustMonoDspGenerator.createNode context nameIn factory sp bufferSize w).1 = Some node ->
  match node with
  | FaustMonoScriptProcessorNode sp dsp =>
      mono_instance_factory (mono_dsp_instance dsp) = factory /\
      sp_numberOfInputChannels sp = inputs (JSON_parse (json factory)) /\
      sp_numberOfOutputChannels sp = outputs (JSON_parse (json factory))
  | FaustMonoAudioWorkletNode _ _ factory' _ => factory' = factory
  end.
Proof.
  destruct (sp_cases sp) as [-> | Hsp].
  { rewrite mono_createNode_script. simpl. by intros [= <-]. }
  destruct (decide (nameIn +:+ toString (cfactory factory) ∈ Mono_gWorkletProcessors w)).
  { rewrite mono_createNode_hit by done. simpl. by intros [= <-]. }
  rewrite mono_createNode_miss by done. cbv zeta.
  destruct (addModule_resolves _ _ _); simpl; [by intros [= <-] | done].
Qed.

Lemma poly_createNode_built_from context nameIn voiceFactory mixerModule voices sp
    effectFactory bufferSize w node :
  (FaustPolyDspGenerator.createNode context nameIn voiceFactory mixerModule voices sp
     effectFactory bufferSize w).1 = Some node ->
  match node with
  | FaustPolyScriptProcessorNode sp dsp =>
      poly_instance_voiceFactory (poly_dsp_instance dsp) = voiceFactory /\
      sp_numberOfInputChannels sp = inputs (JSON_parse (json voiceFactory)) /\
      sp_numberOfOutputChannels sp = outputs (JSON_parse (json voiceFactory))
  | FaustPolyAudioWorkletNode _ _ voiceFactory' _ _ _ _ => voiceFactory' = voiceFactory
  end.
Proof.
  destruct (sp_cases sp) as [-> | Hsp].
  { rewrite poly_createNode_script. simpl. by intros [= <-]. }
  destruct (decide (nameIn +:+ toString (cfactory voiceFactory) +:+ "_poly"
                      ∈ Poly_gWorkletProcessors w)).
  { rewrite poly_createNode_hit by done. simpl. by intros [= <-]. }
  rewrite poly_createNode_miss by done. cbv zeta.
  destruct (addModule_resolves _ _ _); simpl; [by intros [= <-] | done].
Qed.

End channel_counts.

(** C8: a node built from a factory reports, as [getNumInputs] and
    [getNumOutputs], the channel counts declared in the factory's metadata (the
    voice factory's for a poly node), and goes on reporting them after any
    series of operations on the node; a script processor node is also created
    with these counts as its channel numbers. *)
Theorem C8_channel_counts_match_metadata `{Host} :
  (forall context nameIn factory sp bufferSize w node ops,
     (FaustMonoDspGenerator.createNode context nameIn factory sp bufferSize w).1
       = Some node ->
     let live := FaustNode.apply_all (FaustNode.start node) ops in
     FaustNode.mono_getNumInputs live = inputs (JSON_parse (json factory)) /\
     FaustNode.mono_getNumOutputs live = outputs (JSON_parse (json factory)) /\
     (forall sp dsp, node = FaustMonoScriptProcessorNode sp dsp ->
        sp_numberOfInputChannels sp = inputs (JSON_parse (json factory)) /\
        sp_numberOfOutputChannels sp = outputs (JSON_parse (json factory)))) /\
  (forall context nameIn voiceFactory mixerModule voices sp effectFactory bufferSize w node
          ops,
     (FaustPolyDspGenerator.createNode context nameIn voiceFactory mixerModule voices sp
        effectFactory bufferSize w).1 = Some node ->
     let live := FaustNode.apply_all (FaustNode.start node) ops in
     FaustNode.poly_getNumInputs live = inputs (JSON_parse (json voiceFactory)) /\
     FaustNode.poly_getNumOutputs live = outputs (JSON_parse (json voiceFactory)) /\
     (forall sp dsp, node = FaustPolyScriptProcessorNode sp dsp ->
        sp_numberOfInputChannels sp = inputs (JSON_parse (json voiceFactory)) /\
        sp_numberOfOutputChannels sp = outputs (JSON_parse (json voiceFactory)))).
Proof.
  split.
  - intros context nameIn factory sp bufferSize w node ops Hnode live.
    apply mono_createNode_built_from in Hnode.
    unfold FaustNode.mono_getNumInputs, FaustNode.mono_getNumOutputs. subst live.
    rewrite built_apply_all. simpl.
    destruct node as [sp' dsp | ? ? factory' ?].
    + destruct Hnode as (Hfactory & Hin & Hout).
      unfold FaustMonoWebAudioDspAPI.getNumInputs, FaustMonoWebAudioDspAPI.getNumOutputs.
      rewrite Hfactory. do 2 (split; [done|]). by intros ? ? [= <- <-].
    + subst factory'. do 2 (split; [done|]). discriminate.
  - intros context nameIn voiceFactory mixerModule voices sp effectFactory bufferSize w node
      ops Hnode live.
    apply poly_createNode_built_from in Hnode.
    unfold FaustNode.poly_getNumInputs, FaustNode.poly_getNumOutputs. subst live.
    rewrite built_apply_all. simpl.
    destruct node as [sp' dsp | ? ? voiceFactory' ? ? ? ?].
    + destruct Hnode as (Hfactory & Hin & Hout).
      unfold FaustPolyWebAudioDspAPI.getNumInputs, FaustPolyWebAudioDspAPI.getNumOutputs.
      rewrite Hfactory. do 2 (split; [done|]). by intros ? ? [= <- <-].
    + subst voiceFactory'. do 2 (split; [done|]). discriminate.
Qed.

Lemma C8_channel_counts_match_metadata_witness :
  let node := FaustMonoAudioWorkletNode ctx0 "osc5" osc_single 4 in
  (@FaustMonoDspGenerator.createNode accepting_host ctx0 "osc" osc_single None None
     initial_world).1 = Some node /\
  @FaustNode.mono_getNumInputs accepting_host
    (FaustNode.apply_all (FaustNode.start node)
       [FaustNode.SetParam "/osc/freq" 440; FaustNode.Destroy]) = 1%N.
Proof.
  intros node. split; [reflexivity |].
  destruct (@C8_channel_counts_match_metadata accepting_host) as [Hmono _].
  apply (Hmono ctx0 "osc" osc_single None None initial_world node
           [FaustNode.SetParam "/osc/freq" 440; FaustNode.Destroy] eq_refl).
Defined.

(** * Further properties of the generators *)

(** ** What the registries hold *)

Lemma count_pos_iff (p : Event -> bool) (tr : list Event) :
  0 < count p tr <-> exists e, e ∈ tr /\ p e = true.
Proof.
  unfold count. induction tr as [|e tr IH]; simpl.
  - split; [lia | intros (e & He & _); by apply elem_of_nil in He].
  - destruct (p e) eqn:Hpe; simpl.
    + split; [intros _; exists e; split; [apply list_elem_of_here | done] | lia].
    + rewrite IH. split.
      * intros (e' & He' & Hp). exists e'. split; [by apply list_elem_of_further | done].
      * intros (e' & He' & Hp). apply elem_of_cons in He' as [-> | He']; [congruence|].
        by exists e'.
Qed.

(** X1: from a fresh process, after any series of generator calls, a name is
    in a generator's registry exactly when the trace holds an [addModule] call
    of that generator for that name which resolved. *)
Theorem registry_holds_exactly_the_accepted_names `{Host} (calls : list Call) (key : string) :
  let w := world (run fresh_process calls) in
  (key ∈ Mono_gWorkletProcessors w <->
     exists context dspMeta,
       EvAddModule context (MonoProcessorCode key dspMeta) true ∈ trace w) /\
  (key ∈ Poly_gWorkletProcessors w <->
     exists context dspMeta effectMeta,
       EvAddModule context (PolyProcessorCode key dspMeta effectMeta) true ∈ trace w).
Proof.
  cbv zeta.
  destruct (accounted_run calls fresh_process accounted_initial key) as [Hm Hp].
  split.
  - split.
    + intros Hin. rewrite bool_decide_eq_true_2 in Hm by done.
      assert (0 < count (mono_registration key) (trace (world (run fresh_process calls))))
        as (e & He & Hreg)%count_pos_iff by lia.
      destruct e as [| | | | | |context [name dspMeta|] []| |]; try done.
      simpl in Hreg. apply bool_decide_eq_true in Hreg as ->. by exists context, dspMeta.
    + intros (context & dspMeta & He).
      destruct (decide (key ∈ Mono_gWorkletProcessors (world (run fresh_process calls))))
        as [|Hout]; [done|].
      rewrite bool_decide_eq_false_2 in Hm by done.
      assert (0 < count (mono_registration key) (trace (world (run fresh_process calls)))).
      { apply count_pos_iff. eexists. split; [exact He|]. simpl. by apply bool_decide_eq_true. }
      lia.
  - split.
    + intros Hin. rewrite bool_decide_eq_true_2 in Hp by done.
      assert (0 < count (poly_registration key) (trace (world (run fresh_process calls))))
        as (e & He & Hreg)%count_pos_iff by lia.
      destruct e as [| | | | | |context [|name dspMeta effectMeta] []| |]; try done.
      simpl in Hreg. apply bool_decide_eq_true in Hreg as ->.
      by exists context, dspMeta, effectMeta.
    + intros (context & dspMeta & effectMeta & He).
      destruct (decide (key ∈ Poly_gWorkletProcessors (world (run fresh_process calls))))
        as [|Hout]; [done|].
      rewrite bool_decide_eq_false_2 in Hp by done.
      assert (0 < count (poly_registration key) (trace (world (run fresh_process calls)))).
      { apply count_pos_iff. eexists. split; [exact He|]. simpl. by apply bool_decide_eq_true. }
      lia.
Qed.

(** ** The worklet backend and the buffer size *)

(** X2: the worklet backend does not look at [bufferSize]: with [sp] falsy,
    the node returned and the state left behind are the same for every buffer
    size. *)
Theorem worklet_backend_ignores_bufferSize `{Host} :
  (forall context nameIn factory sp bufferSize1 bufferSize2 w,
     default false sp = false ->
     FaustMonoDspGenerator.createNode context nameIn factory sp bufferSize1 w
     = FaustMonoDspGenerator.createNode context nameIn factory sp bufferSize2 w) /\
  (forall context nameIn voiceFactory mixerModule voices sp effectFactory bufferSize1
          bufferSize2 w,
     default false sp = false ->
     FaustPolyDspGenerator.createNode context nameIn voiceFactory mixerModule voices sp
       effectFactory bufferSize1 w
     = FaustPolyDspGenerator.createNode context nameIn voiceFactory mixerModule voices sp
         effectFactory bufferSize2 w).
Proof.
  split.
  - intros context nameIn factory sp bufferSize1 bufferSize2 w Hsp.
    destruct (decide (nameIn +:+ toString (cfactory factory) ∈ Mono_gWorkletProcessors w)).
    + by rewrite !mono_createNode_hit.
    + by rewrite !mono_createNode_miss.
  - intros context nameIn voiceFactory mixerModule voices sp effectFactory bufferSize1
      bufferSize2 w Hsp.
    destruct (decide (nameIn +:+ toString (cfactory voiceFactory) +:+ "_poly"
                        ∈ Poly_gWorkletProcessors w)).
    + by rewrite !poly_createNode_hit.
    + by rewrite !poly_createNode_miss.
Qed.

Lemma worklet_backend_ignores_bufferSize_witness :
  @FaustMonoDspGenerator.createNode accepting_host ctx0 "osc" osc_single None (Some 256%N)
    initial_world
  = @FaustMonoDspGenerator.createNode accepting_host ctx0 "osc" osc_single None None
      initial_world.
Proof.
  destruct (@worklet_backend_ignores_bufferSize accepting_host) as [Hmono _].
  apply (Hmono ctx0 "osc" osc_single None (Some 256%N) None initial_world eq_refl).
Defined.

(** ** When [createNode] returns [null] *)

(** X3: [createNode] returns [null] in exactly one situation: the worklet
    backend is asked for, the name is not registered yet, and [addModule]
    rejects. *)
Theorem createNode_null_iff_registration_refused `{Host} :
  (forall context nameIn factory sp bufferSize w,
     let name := nameIn +:+ toString (cfactory factory) in
     (FaustMonoDspGenerator.createNode context nameIn factory sp bufferSize w).1 = None <->
     default false sp = false /\
     (name ∉ Mono_gWorkletProcessors w) /\
     addModule_resolves (trace w) context (MonoProcessorCode name (json factory)) = false) /\
  (forall context nameIn voiceFactory mixerModule voices sp effectFactory bufferSize w,
     let name := nameIn +:+ toString (cfactory voiceFactory) +:+ "_poly" in
     (FaustPolyDspGenerator.createNode context nameIn voiceFactory mixerModule voices sp
        effectFactory bufferSize w).1 = None <->
     default false sp = false /\
     (name ∉ Poly_gWorkletProcessors w) /\
     addModule_resolves (trace w) context
       (PolyProcessorCode name (json voiceFactory) (json <$> effectFactory)) = false).
Proof.
  split.
  - intros context nameIn factory sp bufferSize w name.
    destruct (sp_cases sp) as [-> | Hsp].
    { rewrite mono_createNode_script. simpl. split; [done | by intros [? _]]. }
    destruct (decide (name ∈ Mono_gWorkletProcessors w)) as [Hin | Hout].
    { rewrite mono_createNode_hit by done. simpl. split; [done | by intros (_ & ? & _)]. }
    rewrite mono_createNode_miss by done. cbv zeta. fold name.
    destruct (addModule_resolves _ _ _); simpl; split; try done. by intros (_ & _ & ?).
  - intros context nameIn voiceFactory mixerModule voices sp effectFactory bufferSize w name.
    destruct (sp_cases sp) as [-> | Hsp].
    { rewrite poly_createNode_script. simpl. split; [done | by intros [? _]]. }
    destruct (decide (name ∈ Poly_gWorkletProcessors w)) as [Hin | Hout].
    { rewrite poly_createNode_hit by done. simpl. split; [done | by intros (_ & ? & _)]. }
    rewrite poly_createNode_miss by done. cbv zeta. fold name.
    destruct (addModule_resolves _ _ _); simpl; split; try done. by intros (_ & _ & ?).
Qed.

(** ** Names and handles *)

Lemma toString_inj (a b : Z) : toString a = toString b -> a = b.
Proof. unfold toString. apply pretty_Z_inj. Qed.

Lemma key_handle_inj (nameIn : string) (a b : Z) :
  nameIn +:+ toString a = nameIn +:+ toString b -> a = b.
Proof. intros Heq%String.app_inj. by apply toString_inj. Qed.

Lemma append_assoc (s t u : string) : (s +:+ t) +:+ u = s +:+ (t +:+ u).
Proof. induction s as [|c s IH]; [done|]. by rewrite !append_cons, IH. Qed.

Lemma append_inj_r (s1 s2 t : string) : s1 +:+ t = s2 +:+ t -> s1 = s2.
Proof.
  assert (forall s, String.length (s +:+ t) = String.length s + String.length t) as Hlen.
  { intros s. induction s as [|c s IH]; [done|]. rewrite append_cons. simpl. by rewrite IH. }
  revert s2. induction s1 as [|c s1 IH]; intros [|d s2] Heq.
  - done.
  - apply (f_equal String.length) in Heq. rewrite !Hlen in Heq. simpl in Heq. lia.
  - apply (f_equal String.length) in Heq. rewrite !Hlen in Heq. simpl in Heq. lia.
  - rewrite !append_cons in Heq. injection Heq as -> Heq. f_equal. by apply IH.
Qed.

(** X4: under one name, factories with different handles never share a
    registration: when neither key is registered, building one and then the
    other calls [addModule] twice, whatever the host answers. *)
Theorem different_handles_register_separately `{Host} :
  (forall context1 context2 nameIn factory1 factory2 sp1 sp2 bufferSize1 bufferSize2 w,
     let first :=
       FaustMonoDspGenerator.createNode context1 nameIn factory1 sp1 bufferSize1 w in
     let second :=
       FaustMonoDspGenerator.createNode context2 nameIn factory2 sp2 bufferSize2 first.2 in
     cfactory factory1 <> cfactory factory2 ->
     default false sp1 = false -> default false sp2 = false ->
     nameIn +:+ toString (cfactory factory1) ∉ Mono_gWorkletProcessors w ->
     nameIn +:+ toString (cfactory factory2) ∉ Mono_gWorkletProcessors w ->
     count is_addModule (trace second.2) = S (S (count is_addModule (trace w)))) /\
  (forall context1 context2 nameIn voiceFactory1 voiceFactory2 mixerModule1 mixerModule2
          voices1 voices2 sp1 sp2 effectFactory1 effectFactory2 bufferSize1 bufferSize2 w,
     let first := FaustPolyDspGenerator.createNode context1 nameIn voiceFactory1 mixerModule1
                    voices1 sp1 effectFactory1 bufferSize1 w in
     let second := FaustPolyDspGenerator.createNode context2 nameIn voiceFactory2
                     mixerModule2 voices2 sp2 effectFactory2 bufferSize2 first.2 in
     cfactory voiceFactory1 <> cfactory voiceFactory2 ->
     default false sp1 = false -> default false sp2 = false ->
     nameIn +:+ toString (cfactory voiceFactory1) +:+ "_poly" ∉ Poly_gWorkletProcessors w ->
     nameIn +:+ toString (cfactory voiceFactory2) +:+ "_poly" ∉ Poly_gWorkletProcessors w ->
     count is_addModule (trace second.2) = S (S (count is_addModule (trace w)))).
Proof.
  split.
  - intros context1 context2 nameIn factory1 factory2 sp1 sp2 bufferSize1 bufferSize2 w
      first second Hne Hsp1 Hsp2 Hout1 Hout2. subst second first.
    rewrite (mono_createNode_miss context1) by done. cbv zeta.
    destruct (addModule_resolves _ context1 _); simpl.
    + rewrite mono_createNode_miss; [|done|].
      * cbv zeta. simpl.
        destruct (addModule_resolves _ context2 _); simpl;
          rewrite !count_app; unfold count; simpl; lia.
      * simpl. intros [Heq%elem_of_singleton | Hin]%elem_of_union; [|done].
        apply key_handle_inj in Heq. congruence.
    + rewrite mono_createNode_miss by done. cbv zeta. simpl.
      destruct (addModule_resolves _ context2 _); simpl;
        rewrite !count_app; unfold count; simpl; lia.
  - intros context1 context2 nameIn voiceFactory1 voiceFactory2 mixerModule1 mixerModule2
      voices1 voices2 sp1 sp2 effectFactory1 effectFactory2 bufferSize1 bufferSize2 w
      first second Hne Hsp1 Hsp2 Hout1 Hout2. subst second first.
    rewrite (poly_createNode_miss context1) by done. cbv zeta.
    destruct (addModule_resolves _ context1 _); simpl.
    + rewrite poly_createNode_miss; [|done|].
      * cbv zeta. simpl.
        destruct (addModule_resolves _ context2 _); simpl;
          rewrite !count_app; unfold count; simpl; lia.
      * simpl. intros [Heq%elem_of_singleton | Hin]%elem_of_union; [|done].
        rewrite <- !append_assoc in Heq. apply append_inj_r, key_handle_inj in Heq.
        congruence.
    + rewrite poly_createNode_miss by done. cbv zeta. simpl.
      destruct (addModule_resolves _ context2 _); simpl;
        rewrite !count_app; unfold count; simpl; lia.
Qed.

Lemma different_handles_register_separately_witness :
  count is_addModule
    (trace (@FaustMonoDspGenerator.createNode refusing_host ctx0 "osc" osc_double None None
              (@FaustMonoDspGenerator.createNode refusing_host ctx0 "osc" osc_single None
                 None initial_world).2).2) = 2.
Proof.
  destruct (@different_handles_register_separately refusing_host) as [Hmono _].
  apply (Hmono ctx0 ctx0 "osc" osc_single osc_double None None None None initial_world).
  - discriminate.
  - reflexivity.
  - reflexivity.
  - apply not_elem_of_empty.
  - apply not_elem_of_empty.
Defined.

(** X5: the key is a plain concatenation, so a different name with a
    different handle can spell the same key.  Then the second build is a cache
    hit: it gets an AudioWorkletNode under that key without any [addModule],
    and the only module registered under the key is the one made from the
    first factory's metadata. *)
Theorem colliding_keys_share_a_registration `{Host} :
  forall context1 context2 nameIn1 nameIn2 factory1 factory2 sp1 sp2 bufferSize1
         bufferSize2 w,
    let key := nameIn1 +:+ toString (cfactory factory1) in
    let first :=
      FaustMonoDspGenerator.createNode context1 nameIn1 factory1 sp1 bufferSize1 w in
    let second :=
      FaustMonoDspGenerator.createNode context2 nameIn2 factory2 sp2 bufferSize2 first.2 in
    nameIn2 +:+ toString (cfactory factory2) = key ->
    default false sp1 = false -> default false sp2 = false ->
    key ∉ Mono_gWorkletProcessors w ->
    addModule_resolves (trace w) context1 (MonoProcessorCode key (json factory1)) = true ->
    (exists sampleSize,
       second.1 = Some (FaustMonoAudioWorkletNode context2 key factory2 sampleSize)) /\
    trace second.2
      = trace w ++ [EvAddModule context1 (MonoProcessorCode key (json factory1)) true;
                    EvNewAudioWorkletNode context1 key;
                    EvNewAudioWorkletNode context2 key].
Proof.
  intros context1 context2 nameIn1 nameIn2 factory1 factory2 sp1 sp2 bufferSize1
    bufferSize2 w key first second Hkey Hsp1 Hsp2 Hout Hok. subst second first.
  rewrite (mono_createNode_miss context1) by done. cbv zeta. fold key. rewrite Hok. simpl.
  rewrite mono_createNode_hit; [|done|].
  - rewrite Hkey. simpl. split; [by eexists|]. by rewrite <- app_assoc.
  - rewrite Hkey. simpl. apply elem_of_union_l. by apply elem_of_singleton.
Qed.

Lemma colliding_keys_share_a_registration_witness :
  let factory2 := {| cfactory := 2; code := code osc_single; module := module osc_single;
                     json := json osc_single; poly := false |} in
  let factory12 := {| cfactory := 12; code := code osc_double; module := module osc_double;
                      json := json osc_double; poly := false |} in
  "a" +:+ toString (cfactory factory12) = "a1" +:+ toString (cfactory factory2) /\
  exists sampleSize,
    (@FaustMonoDspGenerator.createNode accepting_host ctx0 "a" factory12 None None
       (@FaustMonoDspGenerator.createNode accepting_host ctx0 "a1" factory2 None None
          initial_world).2).1
    = Some (FaustMonoAudioWorkletNode ctx0 "a12" factory12 sampleSize).
Proof.
  intros factory2 factory12. split; [reflexivity|].
  apply (@colliding_keys_share_a_registration accepting_host ctx0 ctx0 "a1" "a" factory2
           factory12 None None None None initial_world eq_refl eq_refl eq_refl).
  - apply not_elem_of_empty.
  - reflexivity.
Defined.



(** ** Mono and poly processor names are different *)

Lemma last_char_cons (c : Ascii.ascii) (s : string) :
  s <> "" -> last_char (String c s) = last_char s.
Proof. by destruct s. Qed.

Lemma last_char_app (s t : string) : t <> "" -> last_char (s +:+ t) = last_char t.
Proof.
  intros Ht. induction s as [|c s IH]; [done|].
  rewrite append_cons, last_char_cons; [done|]. by destruct s, t.
Qed.

Lemma is_digit_pretty_N_char (x : N) : is_digit (pretty_N_char x) = true.
Proof. unfold pretty_N_char. by repeat case_match. Qed.

Lemma last_char_pretty_N_go (x : N) (s : string) :
  s <> "" -> last_char (pretty_N_go x s) = last_char s.
Proof.
  revert s. induction (N.lt_wf_0 x) as [x _ IH]; intros s Hs.
  assert (x = 0 \/ 0 < x)%N as [-> | Hpos] by lia.
  - by rewrite pretty_N_go_0.
  - rewrite pretty_N_go_step by done. rewrite IH; [|by apply N.div_lt|done].
    by apply last_char_cons.
Qed.

Lemma last_char_pretty_N (x : N) : exists d, last_char (pretty x) = Some d /\ is_digit d = true.
Proof.
  unfold pretty, pretty_N. case_decide as Hx.
  - eexists; split; reflexivity.
  - rewrite pretty_N_go_step by lia. rewrite last_char_pretty_N_go by done.
    eexists. split; [done|]. apply is_digit_pretty_N_char.
Qed.

Lemma last_char_toString (handle : Z) :
  exists d, last_char (toString handle) = Some d /\ is_digit d = true.
Proof.
  unfold toString, pretty, pretty_Z. destruct handle as [|p|p].
  - eexists; split; reflexivity.
  - apply last_char_pretty_N.
  - destruct (last_char_pretty_N (N.pos p)) as (d & Hd & Hdigit).
    exists d. split; [|done]. rewrite last_char_app; [done|].
    intros Hempty. unfold pretty, pretty_positive in Hempty.
    by rewrite Hempty in Hd.
Qed.

Lemma mono_name_is_no_poly_name (nameIn1 nameIn2 : string) (handle1 handle2 : Z) :
  nameIn1 +:+ toString handle1 <> nameIn2 +:+ toString handle2 +:+ "_poly".
Proof.
  intros Heq. apply (f_equal last_char) in Heq.
  destruct (last_char_toString handle1) as (d & Hd & Hdigit).
  rewrite last_char_app in Heq by (intros Hempty; by rewrite Hempty in Hd).
  rewrite <- append_assoc, (last_char_app _ "_poly") in Heq by done.
  rewrite Hd in Heq. simpl in Heq. injection Heq as ->. done.
Qed.

Lemma well_named_extend (w : World) (evs : list Event) :
  Forall well_named (trace w) -> Forall well_named evs ->
  Forall well_named (trace (extend w evs)).
Proof. intros. by apply Forall_app. Qed.

Section naming.
Context `{Host}.

Lemma well_named_mono_createNode context nameIn factory sp bufferSize w :
  Forall well_named (trace w) ->
  Forall well_named
    (trace (FaustMonoDspGenerator.createNode context nameIn factory sp bufferSize w).2).
Proof.
  intros Hw. destruct (sp_cases sp) as [-> | Hsp].
  { rewrite mono_createNode_script. apply well_named_extend; [done|]. by repeat constructor. }
  destruct (decide (nameIn +:+ toString (cfactory factory) ∈ Mono_gWorkletProcessors w)).
  { rewrite mono_createNode_hit by done. apply well_named_extend; [done|].
    by repeat constructor. }
  rewrite mono_createNode_miss by done. cbv zeta.
  destruct (addModule_resolves _ _ _); simpl; apply Forall_app; split; try done;
    repeat constructor; by do 2 eexists.
Qed.

Lemma well_named_poly_createNode context nameIn voiceFactory mixerModule voices sp
    effectFactory bufferSize w :
  Forall well_named (trace w) ->
  Forall well_named
    (trace (FaustPolyDspGenerator.createNode context nameIn voiceFactory mixerModule voices
              sp effectFactory bufferSize w).2).
Proof.
  intros Hw. destruct (sp_cases sp) as [-> | Hsp].
  { rewrite poly_createNode_script. apply well_named_extend; [done|]. by repeat constructor. }
  destruct (decide (nameIn +:+ toString (cfactory voiceFactory) +:+ "_poly"
                      ∈ Poly_gWorkletProcessors w)).
  { rewrite poly_createNode_hit by done. apply well_named_extend; [done|].
    by repeat constructor. }
  rewrite poly_createNode_miss by done. cbv zeta.
  destruct (addModule_resolves _ _ _); simpl; apply Forall_app; split; try done;
    repeat constructor; by do 2 eexists.
Qed.

Lemma well_named_step (p : Process) (c : Call) :
  Forall well_named (trace (world p)) -> Forall well_named (trace (world (step p c))).
Proof.
  intros Hw.
  destruct c as [context nameIn factory sp bufferSize
                | context name compiler src args sp bufferSize
                | factory rate bufferSize
                | context nameIn voiceFactory mixerModule voices sp effectFactory bufferSize
                | context name compiler dspCode effectCode args voices sp bufferSize];
    unfold step.
  - pose proof (well_named_mono_createNode context nameIn factory sp bufferSize _ Hw).
    by destruct (FaustMonoDspGenerator.createNode _ _ _ _ _ _).
  - rewrite mono_compileNode_unfold. cbv zeta.
    destruct (createMonoDSPFactory compiler name src args) as [factory|].
    + match goal with
      | |- context [FaustMonoDspGenerator.createNode ?c ?n ?f ?s ?b ?w] =>
          assert (Forall well_named (trace w)) as Hw'
            by (apply well_named_extend; [done | by repeat constructor]);
          pose proof (well_named_mono_createNode c n f s b w Hw');
          by destruct (FaustMonoDspGenerator.createNode c n f s b w)
      end.
    + apply well_named_extend; [done | by repeat constructor].
  - rewrite mono_createOfflineProcessor_unfold.
    apply well_named_extend; [done | by repeat constructor].
  - pose proof (well_named_poly_createNode context nameIn voiceFactory mixerModule voices sp
                  effectFactory bufferSize _ Hw).
    by destruct (FaustPolyDspGenerator.createNode _ _ _ _ _ _ _ _ _).
  - rewrite poly_compileNode_unfold. cbv zeta.
    destruct (createPolyDSPFactory compiler name dspCode args) as [voiceFactory|];
      [|apply well_named_extend; [done | by repeat constructor]].
    destruct (getAsyncInternalMixerModule compiler _) as [mixerModule|];
      [|apply well_named_extend; [done | by repeat constructor]].
    match goal with
    | |- context [FaustPolyDspGenerator.createNode ?c ?n ?v ?m ?k ?s ?e ?b ?w] =>
        assert (Forall well_named (trace w)) as Hw'
          by (apply well_named_extend; [done | by repeat constructor]);
        pose proof (well_named_poly_createNode c n v m k s e b w Hw');
        by destruct (FaustPolyDspGenerator.createNode c n v m k s e b w)
    end.
Qed.

Lemma well_named_run (calls : list Call) (p : Process) :
  Forall well_named (trace (world p)) -> Forall well_named (trace (world (run p calls))).
Proof.
  revert p. induction calls as [|c calls IH]; intros p Hw; [done|].
  simpl. by apply IH, well_named_step.
Qed.

End naming.

Lemma count_orb (p q : Event -> bool) (tr : list Event) :
  (forall e, p e = true -> q e = true -> False) ->
  count (fun e => p e || q e) tr = count p tr + count q tr.
Proof.
  intros Hdisjoint. unfold count. induction tr as [|e tr IH]; [done|]. simpl.
  destruct (p e) eqn:Hp, (q e) eqn:Hq; simpl; try lia.
  by destruct (Hdisjoint e).
Qed.

(** X7: a processor name is registered successfully at most once in the whole
    process, the two generators taken together: a mono name ends with the
    digits of the handle and a poly name with "_poly", so the generators never
    use the same name. *)
Theorem one_registration_per_processor_name `{Host} (calls : list Call) (key : string) :
  count (registered_name key) (trace (world (run fresh_process calls))) <= 1.
Proof.
  unfold registered_name. rewrite count_orb.
  2:{ intros [| | | | | |? [] []| |]; done. }
  pose proof (registry_holds_exactly_the_accepted_names calls key) as [Hmono Hpoly].
  cbv zeta in *.
  destruct (accounted_run calls fresh_process accounted_initial key) as [Hm Hp].
  rewrite Hm, Hp.
  destruct (bool_decide_reflect (key ∈ Mono_gWorkletProcessors
                                         (world (run fresh_process calls)))) as [Hin1|];
    destruct (bool_decide_reflect (key ∈ Poly_gWorkletProcessors
                                           (world (run fresh_process calls)))) as [Hin2|];
    try lia.
  exfalso.
  apply Hmono in Hin1 as (context1 & dspMeta1 & He1).
  apply Hpoly in Hin2 as (context2 & dspMeta2 & effectMeta2 & He2).
  pose proof (well_named_run calls fresh_process (Forall_nil_2 _)) as Hnamed.
  rewrite Forall_forall in Hnamed.
  destruct (Hnamed _ He1) as (nameIn1 & handle1 & Hkey1).
  destruct (Hnamed _ He2) as (nameIn2 & handle2 & Hkey2).
  rewrite Hkey1 in Hkey2. by apply mono_name_is_no_poly_name in Hkey2.
Qed.

(** ** The mono generator's factory field *)

Lemma run_app `{Host} (p : Process) (calls1 calls2 : list Call) :
  run p (calls1 ++ calls2) = run (run p calls1) calls2.
Proof. unfold run. apply fold_left_app. Qed.

Lemma mono_generator_step_other `{Host} (p : Process) (c : Call) :
  is_mono_compileNode c = false -> mono_generator (step p c) = mono_generator p.
Proof.
  intros Hc.
  destruct c as [context nameIn factory sp bufferSize
                | context name compiler src args sp bufferSize
                | factory rate bufferSize
                | context nameIn voiceFactory mixerModule voices sp effectFactory bufferSize
                | context name compiler dspCode effectCode args voices sp bufferSize];
    try discriminate; unfold step.
  - by destruct (FaustMonoDspGenerator.createNode _ _ _ _ _ _).
  - by destruct (FaustMonoDspGenerator.createOfflineProcessor _ _ _ _).
  - by destruct (FaustPolyDspGenerator.createNode _ _ _ _ _ _ _ _ _).
  - by destruct (FaustPolyDspGenerator.compileNode _ _ _ _ _ _ _ _ _ _ _) as [[] ].
Qed.

Lemma mono_generator_run_other `{Host} (calls : list Call) (p : Process) :
  forallb (fun c => negb (is_mono_compileNode c)) calls = true ->
  mono_generator (run p calls) = mono_generator p.
Proof.
  revert p. induction calls as [|c calls IH]; intros p Hcalls; [done|].
  simpl in Hcalls. apply andb_true_iff in Hcalls as [Hc Hcalls].
  simpl. rewrite IH by done. apply mono_generator_step_other. by destruct (is_mono_compileNode c).
Qed.

(** X8: [getFactory] of the mono generator is what the compiler returned in
    the most recent [compileNode] call, [null] included: a failed compilation
    forgets the factory of an earlier successful one, and no other call
    ([createNode], [createOfflineProcessor], the poly generator) changes it. *)
Theorem mono_getFactory_is_last_compilation `{Host} :
  forall p before after context name compiler code args sp bufferSize,
    forallb (fun c => negb (is_mono_compileNode c)) after = true ->
    FaustMonoDspGenerator.getFactory
      (mono_generator
         (run p (before
                 ++ MonoCompileNode context name compiler code args sp bufferSize :: after)))
    = createMonoDSPFactory compiler name code args.
Proof.
  intros p before after context name compiler src args sp bufferSize Hafter.
  rewrite run_app. simpl. fold (run (step (run p before)
    (MonoCompileNode context name compiler src args sp bufferSize)) after).
  rewrite mono_generator_run_other by done. unfold step.
  rewrite mono_compileNode_unfold. cbv zeta.
  destruct (createMonoDSPFactory compiler name src args) as [factory|]; [|done].
  by destruct (FaustMonoDspGenerator.createNode _ _ _ _ _ _).
Qed.

Lemma mono_getFactory_is_last_compilation_witness :
  FaustMonoDspGenerator.getFactory
    (mono_generator
       (@run accepting_host fresh_process
          ([MonoCompileNode ctx0 "osc" generous_compiler "process = _;" "" None None]
           ++ MonoCompileNode ctx0 "osc" rejecting_compiler "process = +;" "" None None
              :: [MonoCreateNode ctx0 "osc" osc_single None None])))
  = None.
Proof.
  apply (@mono_getFactory_is_last_compilation accepting_host fresh_process
           [MonoCompileNode ctx0 "osc" generous_compiler "process = _;" "" None None]
           [MonoCreateNode ctx0 "osc" osc_single None None]
           ctx0 "osc" rejecting_compiler "process = +;" "" None None).
  reflexivity.
Defined.

(** ** The mixer module of a poly node *)

(** X9: when poly [compileNode] produces a node, the mixer module it asked the
    compiler for is the double-precision one exactly when the voice factory's
    compile options contain "-double", and that is exactly when the node's
    sample size is 8: mixer and sample size always agree.  The compiler is
    asked for the voice, then the effect, then the mixer. *)
Theorem poly_mixer_precision_matches_sample_size `{Host} :
  forall this context name compiler dspCode effectCode args voices sp bufferSize w node,
    let r := FaustPolyDspGenerator.compileNode this context name compiler dspCode effectCode
               args voices sp bufferSize w in
    let effect_dsp := if truthy effectCode then default "" effectCode
                      else FaustPolyDspGenerator.integrated_effect dspCode in
    r.1.1 = Some node ->
    exists voiceFactory isDouble rest,
      createPolyDSPFactory compiler name dspCode args = Some voiceFactory /\
      trace r.2 = trace w ++ EvCreatePolyDSPFactory name dspCode args
                             :: EvCreatePolyDSPFactory name effect_dsp args
                             :: EvGetAsyncInternalMixerModule isDouble :: rest /\
      (isDouble = true <->
         contains (compile_options (JSON_parse (json voiceFactory))) "-double") /\
      poly_node_sampleSize node = (if isDouble then 8%N else 4%N).
Proof.
  intros this context name compiler dspCode effectCode args voices sp bufferSize w node
    r effect_dsp. subst r. rewrite poly_compileNode_unfold. cbv zeta. fold effect_dsp.
  destruct (createPolyDSPFactory compiler name dspCode args) as [voiceFactory|]; [|done].
  destruct (getAsyncInternalMixerModule compiler _) as [mixerModule|]; [|done].
  match goal with
  | |- context [FaustPolyDspGenerator.createNode ?c ?n ?v ?m ?k ?s ?e ?b ?w] =>
      pose proof (poly_createNode_trace_grows c n v m k s e b w) as [rest Hrest];
      pose proof (poly_createNode_sampleSize c n v m k s e b w) as Hsize;
      destruct (FaustPolyDspGenerator.createNode c n v m k s e b w) as [node' w2]
  end.
  simpl in *. intros [= ->]. exists voiceFactory. eexists. exists rest.
  split; [done|]. split; [by rewrite Hrest, <- app_assoc|].
  split; [apply matches_contains | by apply Hsize].
Qed.

Lemma poly_mixer_precision_matches_sample_size_witness :
  exists node,
    (@FaustPolyDspGenerator.compileNode accepting_host FaustPolyDspGenerator.new ctx0 "osc"
       generous_compiler "process = +;" None "" 4 (Some true) None initial_world).1.1
      = Some node /\
    poly_node_sampleSize node = 8%N.
Proof.
  eexists. split; [reflexivity|].
  destruct (@poly_mixer_precision_matches_sample_size accepting_host
              FaustPolyDspGenerator.new ctx0 "osc" generous_compiler "process = +;" None ""
              4%N (Some true) None initial_world _ eq_refl)
    as (voiceFactory & isDouble & rest & Hvoice & _ & [_ Hdouble] & Hsize).
  injection Hvoice as <-. rewrite Hsize, Hdouble; [reflexivity|].
  exists "-lang wasm-ib ", " -ftz 2". reflexivity.
Defined.

(** ** Processes that only use the block-synchronous backend *)

Lemma block_synchronous_step `{Host} (p : Process) (c : Call) :
  block_synchronous c = true ->
  Mono_gWorkletProcessors (world (step p c)) = Mono_gWorkletProcessors (world p) /\
  Poly_gWorkletProcessors (world (step p c)) = Poly_gWorkletProcessors (world p) /\
  count is_addModule (trace (world (step p c))) = count is_addModule (trace (world p)).
Proof.
  assert (forall w evs, forallb (fun e => negb (is_addModule e)) evs = true ->
            count is_addModule (trace (extend w evs)) = count is_addModule (trace w))
    as Hquiet.
  { intros w evs Hevs. simpl. rewrite count_app. unfold count.
    induction evs as [|e evs IH]; simpl in *; [lia|].
    apply andb_true_iff in Hevs as [He Hevs]. destruct (is_addModule e); [done|].
    by apply IH. }
  assert (forall sp, default false sp = true -> sp = Some true) as Hsp
    by (by intros [[]|]).
  intros Hc.
  destruct c as [context nameIn factory sp bufferSize
                | context name compiler src args sp bufferSize
                | factory rate bufferSize
                | context nameIn voiceFactory mixerModule voices sp effectFactory bufferSize
                | context name compiler dspCode effectCode args voices sp bufferSize];
    simpl in Hc; try apply Hsp in Hc as ->; unfold step.
  - rewrite mono_createNode_script. cbv zeta. simpl world. by rewrite Hquiet.
  - rewrite mono_compileNode_unfold. cbv zeta.
    destruct (createMonoDSPFactory compiler name src args) as [factory|].
    + rewrite mono_createNode_script. cbv zeta. simpl world. by rewrite !Hquiet.
    + simpl world. by rewrite Hquiet.
  - rewrite mono_createOfflineProcessor_unfold. simpl world. by rewrite Hquiet.
  - rewrite poly_createNode_script. cbv zeta. simpl world. by rewrite Hquiet.
  - rewrite poly_compileNode_unfold. cbv zeta.
    destruct (createPolyDSPFactory compiler name dspCode args) as [voiceFactory|];
      [|simpl world; by rewrite Hquiet].
    destruct (getAsyncInternalMixerModule compiler _) as [mixerModule|];
      [|simpl world; by rewrite Hquiet].
    rewrite poly_createNode_script. cbv zeta. simpl world. by rewrite !Hquiet.
Qed.

(** X10: a process in which every call asks for the block-synchronous backend
    ([sp = true], or an offline processor) never calls [addModule] and never
    adds a name to either registry, however many nodes it builds. *)
Theorem block_synchronous_process_never_registers `{Host} :
  forall calls p,
    forallb block_synchronous calls = true ->
    Mono_gWorkletProcessors (world (run p calls)) = Mono_gWorkletProcessors (world p) /\
    Poly_gWorkletProcessors (world (run p calls)) = Poly_gWorkletProcessors (world p) /\
    count is_addModule (trace (world (run p calls))) = count is_addModule (trace (world p)).
Proof.
  induction calls as [|c calls IH]; intros p Hcalls; [done|].
  simpl in Hcalls. apply andb_true_iff in Hcalls as [Hc Hcalls]. simpl.
  destruct (IH (step p c) Hcalls) as (-> & -> & ->). by apply block_synchronous_step.
Qed.

Lemma block_synchronous_process_never_registers_witness :
  count is_addModule
    (trace (world (@run accepting_host fresh_process
                     [MonoCreateNode ctx0 "osc" osc_single (Some true) None;
                      PolyCompileNode ctx0 "osc" generous_compiler "process = _;" None ""
                        4 (Some true) (Some 512%N);
                      MonoCreateOfflineProcessor osc_double 44100 256]))) = 0.
Proof.
  apply (@block_synchronous_process_never_registers accepting_host
           [MonoCreateNode ctx0 "osc" osc_single (Some true) None;
            PolyCompileNode ctx0 "osc" generous_compiler "process = _;" None ""
              4%N (Some true) (Some 512%N);
            MonoCreateOfflineProcessor osc_double 44100 256] fresh_process).
  reflexivity.
Defined.

(** ** Compiling the same program again *)



(** * The web plugin *)

Section web_plugin.
Import WebPlugin.

(** ** [getBasetUrl] *)

Lemma lastIndexOf_from_cons (c : Ascii.ascii) (s pat : string) (i : Z) :
  JS.lastIndexOf_from (String c s) pat i
  = if (0 <=? JS.lastIndexOf_from s pat (i + 1))%Z then JS.lastIndexOf_from s pat (i + 1)
    else if String.prefix pat (String c s) then i else (-1)%Z.
Proof. reflexivity. Qed.

Lemma matches_cons (c : Ascii.ascii) (s pat : string) :
  matches (String c s) pat = String.prefix pat (String c s) || matches s pat.
Proof. reflexivity. Qed.

Lemma lastIndexOf_from_absent (s pat : string) (i : Z) :
  pat <> "" -> matches s pat = false -> JS.lastIndexOf_from s pat i = (-1)%Z.
Proof.
  intros Hpat. revert i. induction s as [|c s IH]; intros i Hs.
  - simpl. by destruct pat.
  - rewrite matches_cons in Hs. apply orb_false_iff in Hs as [Hprefix Hrest].
    by rewrite lastIndexOf_from_cons, IH, Hprefix.
Qed.

(** The last occurrence of a one-character pattern. *)
Lemma lastIndexOf_from_last (base file : string) (c : Ascii.ascii) (i : Z) :
  (0 <= i)%Z -> matches file (String c "") = false ->
  JS.lastIndexOf_from (base +:+ String c "" +:+ file) (String c "") i
  = (i + Z.of_nat (String.length base))%Z.
Proof.
  change (String c "" +:+ file) with (String c file).
  revert i. induction base as [|d base IH]; intros i Hi Hfile.
  - change ("" +:+ String c file) with (String c file).
    rewrite lastIndexOf_from_cons, lastIndexOf_from_absent by done.
    assert (String.prefix (String c "") (String c file) = true) as ->
      by (apply prefix_true_iff; by exists file).
    simpl. lia.
  - rewrite append_cons, lastIndexOf_from_cons, IH by (done || lia).
    rewrite (proj2 (Z.leb_le _ _)) by lia. simpl String.length. lia.
Qed.

Lemma substring_prefix (base rest : string) :
  String.substring 0 (String.length base) (base +:+ rest) = base.
Proof.
  induction base as [|c base IH]; [by destruct rest|].
  rewrite append_cons. simpl. by rewrite IH.
Qed.

Lemma length_append (s t : string) :
  String.length (s +:+ t) = String.length s + String.length t.
Proof. induction s as [|c s IH]; [done|]. rewrite append_cons. simpl. by rewrite IH. Qed.

Lemma substring_to_start (s : string) : String.substring 0 0 s = "".
Proof. by destruct s. Qed.

(** X12: [getBasetUrl] cuts the address at its last slash: for an address
    [base/file] whose [file] part has no slash (it may be empty) the result is
    [base]. *)
Theorem getBasetUrl_drops_last_segment (base file : string) :
  ~ contains file "/" ->
  getBasetUrl {| href := base +:+ "/" +:+ file |} = base.
Proof.
  intros Hfile%matches_not_contains. unfold getBasetUrl, JS.lastIndexOf. simpl href.
  rewrite lastIndexOf_from_last by done. unfold JS.substring.
  rewrite length_append. simpl String.length.
  replace (Z.max 0 (Z.min 0 _)) with 0%Z by lia.
  replace (Z.max 0 (Z.min (0 + Z.of_nat (String.length base)) _))
    with (Z.of_nat (String.length base)) by lia.
  replace (Z.min 0 (Z.of_nat (String.length base))) with 0%Z by lia.
  replace (Z.max 0 (Z.of_nat (String.length base)) - 0)%Z
    with (Z.of_nat (String.length base)) by lia.
  rewrite Nat2Z.id. apply substring_prefix.
Qed.

Lemma getBasetUrl_drops_last_segment_witness :
  getBasetUrl {| href := "https://host/plugins/faust" +:+ "/" +:+ "" |}
  = "https://host/plugins/faust".
Proof.
  apply getBasetUrl_drops_last_segment.
  intros Hslash%matches_contains. discriminate Hslash.
Defined.

(** X13: an address without any slash has no base: [lastIndexOf] answers -1,
    which [substring] treats as 0, and the result is the empty string. *)
Theorem getBasetUrl_without_slash (address : string) :
  ~ contains address "/" -> getBasetUrl {| href := address |} = "".
Proof.
  intros Hnone%matches_not_contains. unfold getBasetUrl, JS.lastIndexOf. simpl href.
  rewrite lastIndexOf_from_absent by done. unfold JS.substring.
  replace (Z.max 0 (Z.min 0 _)) with 0%Z by lia.
  replace (Z.max 0 (Z.min (-1) _)) with 0%Z by lia.
  apply substring_to_start.
Qed.

Lemma getBasetUrl_without_slash_witness : getBasetUrl {| href := "about:blank" |} = "".
Proof.
  apply getBasetUrl_without_slash.
  intros Hslash%matches_contains. discriminate Hslash.
Defined.

(** ** The plugin's addresses and its descriptor *)

Lemma truthy_append (s t : string) : t <> "" -> truthy (Some (s +:+ t)) = true.
Proof. intros Ht. destruct s; [by destruct t | done]. Qed.

(** X14: the descriptor address of a plugin is never empty, so
    [_loadDescriptor] never throws its TypeError: it rejects exactly when the
    descriptor cannot be fetched, and otherwise the plugin's descriptor takes
    every loaded key and keeps its other keys. *)
Theorem loadDescriptor_never_throws_TypeError
    (server : Server) (here : URL) (moduleId : string) (audioContext : BaseAudioContext)
    (descriptor0 : gmap string string) :
  let plugin := FaustPingPongDelayPlugin.new here moduleId audioContext descriptor0 in
  let url := getBasetUrl here +:+ "/descriptor.json" in
  match FaustPingPongDelayPlugin._loadDescriptor server plugin with
  | Rejected error => fetch_descriptor server url = None /\ error = FetchFailed url
  | Resolved plugin' =>
      exists loaded,
        fetch_descriptor server url = Some loaded /\
        forall key,
          FaustPingPongDelayPlugin.descriptor plugin' !! key
          = match loaded !! key with
            | Some value => Some value
            | None => descriptor0 !! key
            end
  end.
Proof.
  cbv zeta. unfold FaustPingPongDelayPlugin._loadDescriptor, FaustPingPongDelayPlugin.new.
  simpl FaustPingPongDelayPlugin._descriptorUrl. rewrite truthy_append by done. simpl negb.
  cbv iota.
  destruct (fetch_descriptor server _) as [loaded|] eqn:Hfetch; [|done].
  exists loaded. split; [done|]. intros key. simpl.
  rewrite lookup_union. by destruct (loaded !! key), (descriptor0 !! key).
Qed.

(** X15: the descriptor lies in the plugin's base directory: taking the base
    of the descriptor address gives the plugin's base address back. *)
Theorem descriptorUrl_base_roundtrip
    (here : URL) (moduleId : string) (audioContext : BaseAudioContext)
    (descriptor0 : gmap string string) :
  let plugin := FaustPingPongDelayPlugin.new here moduleId audioContext descriptor0 in
  getBasetUrl {| href := FaustPingPongDelayPlugin._descriptorUrl plugin |}
  = FaustPingPongDelayPlugin._baseURL plugin.
Proof.
  cbv zeta. simpl.
  apply (getBasetUrl_drops_last_segment (getBasetUrl here) "descriptor.json").
  intros Hslash%matches_contains. discriminate Hslash.
Qed.

(** ** [createAudioNode] *)

(** X16: [createAudioNode] needs the DSP metadata and the DSP module and
    nothing else: it rejects exactly when one of the two cannot be loaded, and
    a missing effect or mixer never makes it fail. *)
Theorem createAudioNode_needs_only_the_dsp
    (server : Server) (this : FaustPingPongDelayPlugin.t) (initialState : option string) :
  let base := FaustPingPongDelayPlugin._baseURL this in
  (exists node,
     (FaustPingPongDelayPlugin.createAudioNode server this initialState).1 = Resolved node)
  <-> is_Some (fetch_json server (base +:+ "/dspMeta.json")) /\
      is_Some (compileStreaming server (base +:+ "/dspModule.wasm")).
Proof.
  cbv zeta. unfold FaustPingPongDelayPlugin.createAudioNode.
  destruct (fetch_json server _) as [meta|].
  - destruct (compileStreaming server _) as [dsp|].
    + destruct (FaustPingPongDelayPlugin.load_optional_parts _ _ _). simpl.
      split; [done | intros _; by eexists].
    + simpl. split; [by intros [? ?] | by intros [_ []%is_Some_None]].
  - simpl. split; [by intros [? ?] | by intros [[]%is_Some_None _]].
Qed.

(** X17: the optional parts are loaded in order and the first failure stops
    the loading.  So in the node's distribution a mixer module is present only
    with an effect module, and an effect module only with the effect
    metadata; and when the effect metadata cannot be loaded, the mixer module
    is not even requested and stays absent, whatever the server holds. *)
Theorem optional_parts_load_in_order
    (server : Server) (this : FaustPingPongDelayPlugin.t) (initialState : option string)
    (node : PluginNode) :
  let base := FaustPingPongDelayPlugin._baseURL this in
  let r := FaustPingPongDelayPlugin.createAudioNode server this initialState in
  r.1 = Resolved node ->
  (is_Some (mixerModule (faustNode_dsp node)) -> is_Some (effectModule (faustNode_dsp node)))
  /\ (is_Some (effectModule (faustNode_dsp node)) ->
      is_Some (effectMeta (faustNode_dsp node)))
  /\ processor_effectMeta node = effectMeta (faustNode_dsp node)
  /\ (fetch_json server (base +:+ "/effectMeta.json") = None ->
      mixerModule (faustNode_dsp node) = None /\
      effectModule (faustNode_dsp node) = None /\
      base +:+ "/mixerModule.wasm" ∉ r.2).
Proof.
  cbv zeta. unfold FaustPingPongDelayPlugin.createAudioNode.
  destruct (fetch_json server (_ +:+ "/dspMeta.json")) as [meta|]; [|done].
  destruct (compileStreaming server (_ +:+ "/dspModule.wasm")) as [dsp|]; [|done].
  unfold FaustPingPongDelayPlugin.load_optional_parts.
  destruct (fetch_json server (_ +:+ "/effectMeta.json")) as [em|].
  - destruct (compileStreaming server (_ +:+ "/effectModule.wasm")) as [emod|].
    + destruct (compileStreaming server (_ +:+ "/mixerModule.wasm")) as [mixer|];
        simpl; intros [= <-]; simpl; repeat split; try done; by intros []%is_Some_None.
    + simpl; intros [= <-]; simpl; repeat split; try done; by intros []%is_Some_None.
  - simpl; intros [= <-]; simpl. repeat split; try done; try by intros []%is_Some_None.
    intros Hin. repeat (apply elem_of_cons in Hin as [Heq | Hin]);
      try (apply String.app_inj in Heq; discriminate Heq).
    by apply elem_of_nil in Hin.
Qed.

Lemma optional_parts_load_in_order_witness :
  exists node,
    (FaustPingPongDelayPlugin.createAudioNode dsp_only_server demo_plugin None).1
      = Resolved node /\
    mixerModule (faustNode_dsp node) = None.
Proof.
  eexists. split; [vm_compute; reflexivity|].
  match goal with
  | |- mixerModule (faustNode_dsp ?node) = None =>
      assert ((FaustPingPongDelayPlugin.createAudioNode dsp_only_server demo_plugin None).1
              = Resolved node) as Hnode by (vm_compute; reflexivity)
  end.
  assert (fetch_json dsp_only_server
            (FaustPingPongDelayPlugin._baseURL demo_plugin +:+ "/effectMeta.json") = None)
    as Hmissing by (vm_compute; reflexivity).
  exact (proj1 (proj2 (proj2 (proj2
           (optional_parts_load_in_order dsp_only_server demo_plugin None _ Hnode)))
           Hmissing)).
Defined.

Lemma createAudioNode_needs_only_the_dsp_witness :
  exists node,
    (FaustPingPongDelayPlugin.createAudioNode dsp_only_server demo_plugin None).1
      = Resolved node.
Proof.
  apply (createAudioNode_needs_only_the_dsp dsp_only_server demo_plugin None).
  split; vm_compute; by eexists.
Defined.

End web_plugin.

(** * The service worker *)

Section service_worker.
Import ServiceWorker.

Lemma addAll_other (network : Network) (urls : list string) (cache cache' : gmap string Response)
    (request : string) :
  addAll network urls cache = Some cache' -> request ∉ urls ->
  cache' !! request = cache !! request.
Proof.
  revert cache. induction urls as [|url urls IH]; intros cache Hadd Hout.
  - by injection Hadd as <-.
  - simpl in Hadd. destruct (network url) as [response|]; [|done].
    destruct (ok response); [|done].
    apply not_elem_of_cons in Hout as [Hne Hout].
    rewrite (IH _ Hadd Hout). by apply lookup_insert_ne.
Qed.

Lemma addAll_grows (network : Network) (urls : list string) (cache cache' : gmap string Response)
    (request : string) :
  addAll network urls cache = Some cache' -> is_Some (cache !! request) ->
  is_Some (cache' !! request).
Proof.
  revert cache. induction urls as [|url urls IH]; intros cache Hadd Hin.
  - by injection Hadd as <-.
  - simpl in Hadd. destruct (network url) as [response|]; [|done].
    destruct (ok response); [|done].
    apply (IH _ Hadd). rewrite lookup_insert. by case_decide.
Qed.

Lemma addAll_stores (network : Network) (urls : list string) (cache cache' : gmap string Response)
    (request : string) :
  addAll network urls cache = Some cache' -> request ∈ urls -> is_Some (cache' !! request).
Proof.
  revert cache. induction urls as [|url urls IH]; intros cache Hadd Hin.
  - by apply elem_of_nil in Hin.
  - simpl in Hadd. destruct (network url) as [response|]; [|done].
    destruct (ok response); [|done].
    apply elem_of_cons in Hin as [-> | Hin]; [|by apply (IH _ Hadd)].
    apply (addAll_grows _ _ _ _ _ Hadd). by rewrite lookup_insert_eq.
Qed.

Lemma addAll_succeeds (network : Network) (urls : list string) (cache : gmap string Response) :
  (forall url, url ∈ urls -> exists response, network url = Some response /\ ok response = true) ->
  is_Some (addAll network urls cache).
Proof.
  revert cache. induction urls as [|url urls IH]; intros cache Hall; [done|].
  destruct (Hall url) as (response & Hfetch & Hok); [apply list_elem_of_here|].
  simpl. rewrite Hfetch, Hok. apply IH. intros url' Hin. apply Hall.
  by apply list_elem_of_further.
Qed.

Lemma addAll_fails (network : Network) (urls : list string) (cache : gmap string Response)
    (url : string) :
  url ∈ urls ->
  (network url = None \/ exists response, network url = Some response /\ ok response = false) ->
  addAll network urls cache = None.
Proof.
  revert cache. induction urls as [|url' urls IH]; intros cache Hin Hbad.
  - by apply elem_of_nil in Hin.
  - simpl. destruct (network url') as [response|] eqn:Hfetch; [|done].
    destruct (ok response) eqn:Hok; [|done].
    apply elem_of_cons in Hin as [-> | Hin]; [|by apply IH].
    destruct Hbad as [Hnone | (response' & Hsome & Hnot)]; congruence.
Qed.

Lemma caches_match_stored (cacheName request : string) (cache : gmap string Response)
    (storage : CacheStorage) :
  cache !! request = opened cacheName storage !! request ->
  caches_match request (stored cacheName cache storage) = caches_match request storage.
Proof.
  induction storage as [|[name old] storage IH]; intros Hsame; simpl in *.
  - by rewrite Hsame.
  - destruct (String.eqb name cacheName); simpl.
    + by rewrite Hsame.
    + destruct (old !! request); [done|]. by apply IH.
Qed.

Lemma caches_match_stored_some (cacheName request : string) (cache : gmap string Response)
    (storage : CacheStorage) :
  is_Some (cache !! request) ->
  is_Some (caches_match request (stored cacheName cache storage)).
Proof.
  intros [response Hin]. induction storage as [|[name old] storage IH]; simpl.
  - by rewrite Hin.
  - destruct (String.eqb name cacheName); simpl.
    + by rewrite Hin.
    + by destruct (old !! request).
Qed.

(** X18: after an install during which every listed resource could be
    fetched, nothing is logged and each listed address is answered by the
    fetch listener whatever the network does afterwards, also when it is
    down. *)
Theorem installed_resources_are_served_offline
    (network later : Network) (storage : CacheStorage) (request : string) :
  (forall url, url ∈ precached ->
     exists response, network url = Some response /\ ok response = true) ->
  request ∈ precached ->
  (on_install network storage).2 = [] /\
  is_Some (on_fetch later (on_install network storage).1 request) /\
  on_fetch later (on_install network storage).1 request
    = caches_match request (on_install network storage).1.
Proof.
  intros Hall Hin. unfold on_install.
  destruct (addAll_succeeds network precached (opened "FAUST_DSP-static-v1" storage) Hall)
    as [cache' Hadd].
  rewrite Hadd. simpl. split; [done|].
  pose proof (caches_match_stored_some "FAUST_DSP-static-v1" request cache' storage
                (addAll_stores _ _ _ _ _ Hadd Hin)) as [response Hmatch].
  unfold on_fetch. rewrite Hmatch. by split.
Qed.

Lemma installed_resources_are_served_offline_witness :
  is_Some (on_fetch offline (on_install online []).1 "/index.html").
Proof.
  apply (installed_resources_are_served_offline online offline [] "/index.html").
  - intros url _. by eexists.
  - unfold precached. set_solver.
Defined.

(** X19: an install during which one listed resource cannot be fetched, or is
    answered with a status that is not ok, stores nothing: every request
    matches in the caches exactly as before.  The failure is logged once and
    does not fail the install. *)
Theorem failed_install_stores_nothing
    (network : Network) (storage : CacheStorage) (url : string) :
  url ∈ precached ->
  (network url = None \/ exists response, network url = Some response /\ ok response = false) ->
  (forall request,
     caches_match request (on_install network storage).1 = caches_match request storage) /\
  (on_install network storage).2 = ["Failed to cache resources during install:"].
Proof.
  intros Hin Hbad. unfold on_install.
  rewrite (addAll_fails _ _ _ _ Hin Hbad). simpl. split; [|done].
  intros request. by apply caches_match_stored.
Qed.

Lemma failed_install_stores_nothing_witness :
  (on_install offline []).2 = ["Failed to cache resources during install:"].
Proof.
  apply (failed_install_stores_nothing offline [] "/index.html").
  - unfold precached. set_solver.
  - by left.
Defined.

(** X20: the install only ever stores the seven listed addresses, and
    "/offline.html" is not one of them.  So unless some other party has put
    that page into a cache, the fallback of the fetch listener finds nothing:
    a request that is neither cached nor reachable gets no response. *)
Theorem offline_fallback_is_never_installed
    (install_network network : Network) (storage : CacheStorage) (request : string) :
  request ∉ precached ->
  caches_match request storage = None ->
  caches_match "/offline.html" storage = None ->
  network request = None ->
  on_fetch network (on_install install_network storage).1 request = None.
Proof.
  assert (forall address, address ∉ precached ->
            caches_match address (on_install install_network storage).1
            = caches_match address storage) as Hsame.
  { intros address Hout. unfold on_install.
    destruct (addAll _ _ _) as [cache'|] eqn:Hadd; simpl; apply caches_match_stored;
      [by apply (addAll_other _ _ _ _ _ Hadd) | done]. }
  intros Hout Hmiss Hpage Hdown. unfold on_fetch.
  rewrite (Hsame request Hout), Hmiss, Hdown, Hsame, Hpage; [done|].
  unfold precached. intros Hin.
  repeat (apply elem_of_cons in Hin as [Heq | Hin]; [discriminate Heq|]).
  by apply elem_of_nil in Hin.
Qed.

Lemma offline_fallback_is_never_installed_witness :
  on_fetch offline (on_install online []).1 "/presets.json" = None.
Proof.
  apply (offline_fallback_is_never_installed online offline [] "/presets.json").
  - unfold precached. intros Hin.
    repeat (apply elem_of_cons in Hin as [Heq | Hin]; [discriminate Heq|]).
    by apply elem_of_nil in Hin.
  - reflexivity.
  - reflexivity.
  - reflexivity.
Defined.

End service_worker.
